(** * JaTango voice product agent: a shallow embedding of [agent/agent.py]

    The agent exposes two tools to a language-model loop:
    [create_product], which resolves the seller from the room, posts a
    product to the persistence endpoint and remembers the created id and
    name, and [add_product_to_show], which resolves the broadcaster and
    sends it an [addProductToShow] remote procedure call.

    The embedding follows the source function by function.  Python
    values are an inductive type, the two attributes of the assistant and
    the outgoing traffic are an explicit state, the room, the endpoint and
    the peer are a read-only environment, and raising and catching
    exceptions is an error layer on top of the state. *)

From Stdlib Require Import ZArith List String Ascii Bool Lia.
From Stdlib Require Import Floats.SpecFloat Decimal DecimalString.
Import ListNotations.

Local Open Scope string_scope.
Local Open Scope Z_scope.

(** ** Python values *)

(** A Python [float] is an IEEE 754 binary64 number. *)
Definition float : Type := spec_float.

Definition float_of_Z (z : Z) : float := binary_normalize 53 1024 z 0 false.

(** The values that cross the two interfaces: what [resp.json()] returns
    and what the [json=] argument and [json.dumps] accept. *)
#[local] Set Warnings "-register-all".
Inductive value : Type :=
| PyNone
| PyBool (b : bool)
| PyInt (n : Z)
| PyFloat (x : float)
| PyStr (s : string)
| PyList (items : list value)
| PyDict (items : list (string * value)).
#[local] Set Warnings "register-all".

(** An exception is known by its class and by the text [str(e)] gives. *)
Record exn : Type := Exn { exn_class : string; exn_str : string }.

(** [type(v).__name__], as it appears in an [AttributeError]. *)
Definition type_name (v : value) : string :=
  match v with
  | PyNone => "NoneType"
  | PyBool _ => "bool"
  | PyInt _ => "int"
  | PyFloat _ => "float"
  | PyStr _ => "str"
  | PyList _ => "list"
  | PyDict _ => "dict"
  end.

(** [str(n)] for an [int]. *)
Definition int_str (n : Z) : string := NilZero.string_of_int (Z.to_int n).

(** Lookup in a [dict] with string keys; keys of a [dict] are unique, so
    the first binding is the binding. *)
Fixpoint dict_lookup (key : string) (items : list (string * value))
  : option value :=
  match items with
  | [] => None
  | (k, v) :: rest => if String.eqb k key then Some v else dict_lookup key rest
  end.

(** Truth value of a [str | None], as tested by [if not x]. *)
Definition truthy (x : option string) : bool :=
  match x with
  | None => false
  | Some s => negb (String.eqb s "")
  end.

(** [x or default] for a [str | None]. *)
Definition or_default (x : option string) (default : string) : string :=
  match x with
  | Some s => if String.eqb s "" then default else s
  | None => default
  end.

(** The string of a [str | None] that was tested to be truthy. *)
Definition str_of (x : option string) : string :=
  match x with
  | Some s => s
  | None => ""
  end.

(** ** The room *)

Module rtc.

Inductive ParticipantKind : Type :=
| PARTICIPANT_KIND_STANDARD
| PARTICIPANT_KIND_INGRESS
| PARTICIPANT_KIND_EGRESS
| PARTICIPANT_KIND_SIP
| PARTICIPANT_KIND_AGENT.

Definition kind_eqb (a b : ParticipantKind) : bool :=
  match a, b with
  | PARTICIPANT_KIND_STANDARD, PARTICIPANT_KIND_STANDARD
  | PARTICIPANT_KIND_INGRESS, PARTICIPANT_KIND_INGRESS
  | PARTICIPANT_KIND_EGRESS, PARTICIPANT_KIND_EGRESS
  | PARTICIPANT_KIND_SIP, PARTICIPANT_KIND_SIP
  | PARTICIPANT_KIND_AGENT, PARTICIPANT_KIND_AGENT => true
  | _, _ => false
  end.

Record RemoteParticipant : Type := { kind : ParticipantKind }.

(** [remote_participants] is a [dict]: it is iterated in insertion
    order, which the list keeps. *)
Record Room : Type :=
  { remote_participants : list (string * RemoteParticipant) }.

(** The arguments of one [perform_rpc] call. *)
Record RpcInvocation : Type :=
  { destination_identity : string;
    method : string;
    payload : string;
    response_timeout : float }.

End rtc.

Record JobContext : Type := { room : rtc.Room }.

(** ** The persistence endpoint *)

Module httpx.

Record Request : Type :=
  { url : string;
    headers : list (string * string);
    json : value }.

(** A response: its status, the text of the [HTTPStatusError] that
    [raise_for_status] composes from the status line and the URL, and
    what [resp.json()] does on the body. *)
Record Response : Type :=
  { status_code : Z;
    status_error : string;
    body : exn + value }.

Definition is_success (resp : Response) : bool :=
  (200 <=? status_code resp) && (status_code resp <=? 299).

End httpx.

(** ** State, environment and exceptions *)

(** The two attributes [__init__] gives the assistant.  The id comes out
    of a decoded response, so it is a value; [None] is [PyNone]. *)
Record ProductAssistant : Type :=
  { _last_product_id : value;
    _last_product_name : option string }.

(** What a tool call can change: the assistant, and the traffic it has
    sent so far (oldest first). *)
Record Session : Type :=
  { self : ProductAssistant;
    posted : list httpx.Request;
    rpcs : list rtc.RpcInvocation }.

(** What a tool call reads: the job context [get_job_context()] gives (or
    the exception it raises outside a job), how the endpoint answers a
    request (a response, or the exception [client.post] raises), and how
    the peer answers a call (the response payload, or the exception
    [perform_rpc] raises, which is where a timeout shows). *)
Record Env : Type :=
  { job_context : exn + JobContext;
    endpoint : httpx.Request -> exn + httpx.Response;
    peer : rtc.RpcInvocation -> exn + string }.

(** A computation runs in an environment, from a session, to a value or a
    raised exception and the session it leaves.  Only subclasses of
    [Exception] are modelled, which are the ones [except Exception]
    catches. *)
Definition M (A : Type) : Type := Env -> Session -> (exn + A) * Session.

Definition ret {A} (a : A) : M A := fun _ s => (inr a, s).

Definition raise {A} (e : exn) : M A := fun _ s => (inl e, s).

Definition bind {A B} (m : M A) (k : A -> M B) : M B :=
  fun env s =>
    match m env s with
    | (inr a, s') => k a env s'
    | (inl e, s') => (inl e, s')
    end.

(** [try: m except Exception as e: handler e]; every exception of the
    model is an [Exception], so the handler takes them all. *)
Definition try_except {A} (m : M A) (handler : exn -> M A) : M A :=
  fun env s =>
    match m env s with
    | (inr a, s') => (inr a, s')
    | (inl e, s') => handler e env s'
    end.

Declare Scope py_scope.
Delimit Scope py_scope with py.
Notation "x <- m ;; k" := (bind m (fun x => k))
  (at level 61, m at next level, right associativity) : py_scope.
Notation "m ;; k" := (bind m (fun _ => k))
  (at level 61, right associativity) : py_scope.
Local Open Scope py_scope.

Definition lift {A} (r : exn + A) : M A := fun _ s => (r, s).

Definition get_self : M ProductAssistant := fun _ s => (inr (self s), s).

Definition set_last_product_id (v : value) : M unit :=
  fun _ s =>
    (inr tt,
     {| self := {| _last_product_id := v;
                   _last_product_name := _last_product_name (self s) |};
        posted := posted s;
        rpcs := rpcs s |}).

Definition set_last_product_name (name : string) : M unit :=
  fun _ s =>
    (inr tt,
     {| self := {| _last_product_id := _last_product_id (self s);
                   _last_product_name := Some name |};
        posted := posted s;
        rpcs := rpcs s |}).

(** [get_job_context()] *)
Definition get_job_context : M JobContext := fun env s => (job_context env, s).

(** [await client.post(url, headers=..., json=...)]: the request goes out,
    then the endpoint answers or the client raises. *)
Definition client_post (url : string) (headers : list (string * string))
    (json : value) : M httpx.Response :=
  fun env s =>
    let req := {| httpx.url := url; httpx.headers := headers;
                  httpx.json := json |} in
    (endpoint env req,
     {| self := self s; posted := posted s ++ [req]; rpcs := rpcs s |}).

(** [await room.local_participant.perform_rpc(...)] *)
Definition perform_rpc (destination_identity method payload : string)
    (response_timeout : float) : M string :=
  fun env s =>
    let call := {| rtc.destination_identity := destination_identity;
                   rtc.method := method;
                   rtc.payload := payload;
                   rtc.response_timeout := response_timeout |} in
    (peer env call,
     {| self := self s; posted := posted s; rpcs := rpcs s ++ [call] |}).

(** ** What the Python runtime and the libraries compute

    Text formatting of floats and containers and [json.dumps] are not code
    of the agent.  The agent is modelled over any implementation of them;
    [CPython] below gives one to run the model with. *)
Class Runtime : Type :=
  { (** [format(x, ".2f")] *)
    format_2f : float -> string;
    (** [str(x)] for a [float] *)
    float_str : float -> string;
    (** [str(v)] for a [list] or a [dict] *)
    container_str : value -> string;
    (** [json.dumps(v)] *)
    json_dumps : value -> string }.

(** [str(v)], which is what an f-string field without a format does. *)
Definition py_str {runtime : Runtime} (v : value) : string :=
  match v with
  | PyNone => "None"
  | PyBool true => "True"
  | PyBool false => "False"
  | PyInt n => int_str n
  | PyFloat x => float_str x
  | PyStr s => s
  | PyList _ | PyDict _ => container_str v
  end.

(** [resp.raise_for_status()] *)
Definition raise_for_status (resp : httpx.Response) : M unit :=
  if httpx.is_success resp then ret tt
  else raise (Exn "HTTPStatusError" (httpx.status_error resp)).

(** [resp.json()] *)
Definition response_json (resp : httpx.Response) : M value :=
  lift (httpx.body resp).

(** [items[0]] on a list *)
Definition list_getitem0 (items : list value) : M value :=
  match items with
  | x :: _ => ret x
  | [] => raise (Exn "IndexError" "list index out of range")
  end.

(** [v.get(key, default)]: a method of [dict] only. *)
Definition value_get (v : value) (key : string) (default : value) : M value :=
  match v with
  | PyDict items =>
      ret (match dict_lookup key items with Some x => x | None => default end)
  | _ =>
      raise (Exn "AttributeError"
               ("'" ++ type_name v ++ "' object has no attribute 'get'"))
  end.

(** ** The agent *)

Section Agent.

Context {runtime : Runtime}.

(** The two settings read from the process environment at import. *)
Variable SUPABASE_URL : string.
Variable SUPABASE_SERVICE_ROLE_KEY : string.

(** The [payload] literal of [supabase_insert_product]. *)
Definition product_payload (seller_id name : string) (weight cost : float)
    (quantity : Z) : value :=
  PyDict
    [ ("name", PyStr name);
      ("price", PyFloat cost);
      ("weight", PyFloat weight);
      ("weight_unit", PyStr "oz");
      ("quantity_in_stock", PyInt quantity);
      ("seller_id", PyStr seller_id);
      ("image", PyStr "");
      ("description", PyStr (name ++ " - added via voice"));
      ("images", PyList []);
      ("colors", PyList []);
      ("sizes", PyList []);
      ("variants", PyList []) ].

(** The client of the [async with] block is opened and closed around the
    one [post]; what the block raises goes through. *)
Definition supabase_insert_product (seller_id name : string)
    (weight cost : float) (quantity : Z) : M value :=
  let headers :=
    [ ("apikey", SUPABASE_SERVICE_ROLE_KEY);
      ("Authorization", "Bearer " ++ SUPABASE_SERVICE_ROLE_KEY);
      ("Content-Type", "application/json");
      ("Prefer", "return=representation") ] in
  let payload := product_payload seller_id name weight cost quantity in
  resp <- client_post (SUPABASE_URL ++ "/rest/v1/products") headers payload ;;
  raise_for_status resp ;;
  data <- response_json resp ;;
  match data with
  | PyList items => list_getitem0 items
  | _ => ret data
  end.

(** The one request [supabase_insert_product] posts. *)
Definition insert_request (seller_id name : string) (weight cost : float)
    (quantity : Z) : httpx.Request :=
  {| httpx.url := SUPABASE_URL ++ "/rest/v1/products";
     httpx.headers :=
       [ ("apikey", SUPABASE_SERVICE_ROLE_KEY);
         ("Authorization", "Bearer " ++ SUPABASE_SERVICE_ROLE_KEY);
         ("Content-Type", "application/json");
         ("Prefer", "return=representation") ];
     httpx.json := product_payload seller_id name weight cost quantity |}.

(** The loop of [get_seller_id_from_room]: an agent is skipped with
    [continue], anything else is returned. *)
Fixpoint seller_scan (items : list (string * rtc.RemoteParticipant))
  : option string :=
  match items with
  | [] => None
  | (identity, participant) :: rest =>
      if rtc.kind_eqb (rtc.kind participant) rtc.PARTICIPANT_KIND_AGENT
      then seller_scan rest
      else Some identity
  end.

(** [str(identity)] is the identity, a key of the [dict] being a [str];
    leaving the loop, or any exception, gives [None]. *)
Definition get_seller_id_from_room : M (option string) :=
  try_except
    (ctx <- get_job_context ;;
     ret (seller_scan (rtc.remote_participants (room ctx))))
    (fun _ => ret None).

(** The tool [create_product].  [self] is the assistant of the session;
    the [context] argument is not used by the body. *)
Definition create_product (name : string) (weight price : float)
    (quantity : Z) : M string :=
  seller_id <- get_seller_id_from_room ;;
  if negb (truthy seller_id)
  then ret "Error: Could not determine seller identity."
  else
    try_except
      (product <- supabase_insert_product (str_of seller_id) name
                    weight price quantity ;;
       product_id <- value_get product "id" (PyStr "unknown") ;;
       set_last_product_id product_id ;;
       set_last_product_name name ;;
       ret ("Product created successfully. "
            ++ "Name: " ++ name ++ ", Price: $" ++ format_2f price
            ++ ", Weight: " ++ float_str weight ++ "oz, "
            ++ "Quantity: " ++ int_str quantity
            ++ ". Product ID: " ++ py_str product_id))
      (fun e => ret ("Error creating product: " ++ exn_str e)).

(** The loop of [add_product_to_show]: the variable starts at [None],
    the first participant that is not an agent is stored and the loop
    is left with [break]. *)
Fixpoint broadcaster_scan (broadcaster_identity : option string)
    (items : list (string * rtc.RemoteParticipant)) : option string :=
  match items with
  | [] => broadcaster_identity
  | (identity, participant) :: rest =>
      if negb (rtc.kind_eqb (rtc.kind participant) rtc.PARTICIPANT_KIND_AGENT)
      then Some identity
      else broadcaster_scan broadcaster_identity rest
  end.

(** The tool [add_product_to_show]; [10.0] is [float_of_Z 10]. *)
Definition add_product_to_show (product_id : string) : M string :=
  try_except
    (ctx <- get_job_context ;;
     let room := room ctx in
     let broadcaster_identity :=
       broadcaster_scan None (rtc.remote_participants room) in
     if negb (truthy broadcaster_identity)
     then ret "Error: No broadcaster found in the room."
     else
       this <- get_self ;;
       let payload :=
         json_dumps
           (PyDict
              [ ("productId", PyStr product_id);
                ("name",
                 PyStr (or_default (_last_product_name this) "Product")) ]) in
       response <- perform_rpc (str_of broadcaster_identity)
                     "addProductToShow" payload (float_of_Z 10) ;;
       ret ("Product added to the live show carousel. " ++ response))
    (fun e => ret ("Error adding product to show: " ++ exn_str e)).

(** The tools the language-model loop can call, and one call. *)
Inductive ToolCall : Type :=
| CreateProduct (name : string) (weight price : float) (quantity : Z)
| AddProductToShow (product_id : string).

Definition call_tool (t : ToolCall) : M string :=
  match t with
  | CreateProduct name weight price quantity =>
      create_product name weight price quantity
  | AddProductToShow product_id => add_product_to_show product_id
  end.

(** A conversation: tool calls one after the other, each in the
    environment of its moment.  A tool returns a string; should it raise,
    the conversation stops there. *)
Fixpoint run_calls (calls : list (Env * ToolCall)) (s : Session)
  : list string * Session :=
  match calls with
  | [] => ([], s)
  | (env, t) :: rest =>
      match call_tool t env s with
      | (inr reply, s') =>
          let (replies, s'') := run_calls rest s' in (reply :: replies, s'')
      | (inl _, s') => ([], s')
      end
  end.

End Agent.

(** [ProductAssistant.__init__]: nothing created yet. *)
Definition new_assistant : ProductAssistant :=
  {| _last_product_id := PyNone; _last_product_name := None |}.

Definition new_session : Session :=
  {| self := new_assistant; posted := []; rpcs := [] |}.

(** ** Vocabulary of the properties *)

Definition is_agent (p : rtc.RemoteParticipant) : bool :=
  rtc.kind_eqb (rtc.kind p) rtc.PARTICIPANT_KIND_AGENT.

(** No participant of the room but agents: an empty room counts. *)
Definition only_agents (r : rtc.Room) : Prop :=
  Forall (fun entry => is_agent (snd entry) = true) (rtc.remote_participants r).

(** The identity of the first participant, in iteration order, whose kind
    is not agent. *)
Definition first_non_agent (r : rtc.Room) : option string :=
  option_map fst
    (find (fun entry => negb (is_agent (snd entry))) (rtc.remote_participants r)).

(** A job whose room has [seller] as first participant that is not an
    agent, under an identity that is not blank. *)
Definition seller_in_room (env : Env) (seller : string) : Prop :=
  exists ctx,
    job_context env = inr ctx /\
    first_non_agent (room ctx) = Some seller /\
    seller <> "".

(** The inputs the properties call valid. *)
Definition valid_input (weight price : float) (quantity : Z) : Prop :=
  SFltb (S754_zero false) weight = true /\
  SFleb (S754_zero false) price = true /\
  0 <= quantity.

(** An identifier as a table gives them: a text that is not blank, or an
    integer. *)
Definition is_identifier (v : value) : bool :=
  match v with
  | PyStr s => negb (String.eqb s "")
  | PyInt _ => true
  | _ => false
  end.

(** The object a response body is normalized to: the body itself, or the
    first element of a list. *)
Definition normalized (data : value) : option value :=
  match data with
  | PyList [] => None
  | PyList (x :: _) => Some x
  | _ => Some data
  end.

(** A computation fails when it raises. *)
Definition fails {A} (r : (exn + A) * Session) : Prop :=
  exists e, fst r = inl e.

(** [s2] begins with [s1]. *)
Definition begins_with (s1 s2 : string) : Prop := exists rest, s2 = s1 ++ rest.

(** ** A runtime to run the model with

    The formatting CPython does, computed exactly on the binary64 value:
    [".2f"] rounds the exact value half to even at the second decimal,
    [repr] of a float gives the shortest decimal that reads back as the
    same float, [json.dumps] escapes everything outside printable ASCII,
    [repr] of a string escapes what is not printable.  Strings are read
    as UTF-8. *)
Module CPython.

Definition normalize (x : float) : float :=
  match x with
  | S754_finite s m e =>
      binary_normalize 53 1024 (if s then Z.neg m else Z.pos m) e s
  | _ => x
  end.

(** The integer nearest to [num / den], ties to even. *)
Definition half_even (num den : Z) : Z :=
  let q := num / den in
  let r := num mod den in
  if 2 * r <? den then q
  else if den <? 2 * r then q + 1
  else if Z.even q then q else q + 1.

Definition two_digits (n : Z) : string :=
  if n <? 10 then "0" ++ int_str n else int_str n.

Definition format_2f (x : float) : string :=
  match normalize x with
  | S754_nan => "nan"
  | S754_infinity s => if s then "-inf" else "inf"
  | S754_zero s => if s then "-0.00" else "0.00"
  | S754_finite s m e =>
      let n :=
        if 0 <=? e then 100 * Z.pos m * 2 ^ e
        else half_even (100 * Z.pos m) (2 ^ (- e)) in
      (if s then "-" else "") ++ int_str (n / 100) ++ "."
      ++ two_digits (n mod 100)
  end.

(** *** Shortest decimal of a float *)

(** A decimal candidate [n * 10 ^ p] against a fraction [num / den]:
    both sides are brought to the integers [n * unit] and [num * scale]. *)
Definition unit_of (p den : Z) : Z := if 0 <=? p then 10 ^ p * den else den.
Definition scale_of (p : Z) : Z := if 0 <=? p then 1 else 10 ^ (- p).

(** [10 ^ p <= num / den] *)
Definition pow10_le (p num den : Z) : bool :=
  unit_of p den <=? num * scale_of p.

Fixpoint lower (fuel : nat) (p num den : Z) : Z :=
  match fuel with
  | O => p
  | S fuel' =>
      if pow10_le p num den then p else lower fuel' (p - 1) num den
  end.

Fixpoint raise_exp (fuel : nat) (p num den : Z) : Z :=
  match fuel with
  | O => p
  | S fuel' =>
      if pow10_le (p + 1) num den then raise_exp fuel' (p + 1) num den else p
  end.

(** The largest [p] with [10 ^ p <= num / den], from a binary estimate. *)
Definition floor_log10 (num den : Z) : Z :=
  let estimate := (Z.log2 num - Z.log2 den) * 1233 / 4096 in
  raise_exp 8 (lower 8 estimate num den) num den.

Fixpoint strip_zeros (fuel : nat) (n p : Z) : Z * Z :=
  match fuel with
  | O => (n, p)
  | S fuel' =>
      if (0 <? n) && (n mod 10 =? 0) then strip_zeros fuel' (n / 10) (p + 1)
      else (n, p)
  end.

(** The decimal of [digits] digits nearest to the float, ties to even, if
    it reads back as the float.  In units of a quarter of the last binary
    place the float is [4 m], and what rounds to it lies between [below]
    and [4 m + 2], the bounds included when the mantissa is even. *)
Definition candidate (m : positive) (below num den e10 : Z) (digits : Z)
  : option (Z * Z) :=
  let p := e10 + 1 - digits in
  let a := unit_of p den in
  let sc := scale_of p in
  let x := 4 * Z.pos m * num * sc in
  let lo := below * num * sc in
  let hi := (4 * Z.pos m + 2) * num * sc in
  let inside (n : Z) :=
    if Z.even (Z.pos m) then (lo <=? n * a) && (n * a <=? hi)
    else (lo <? n * a) && (n * a <? hi) in
  let n0 := x / a in
  let n1 := n0 + 1 in
  match inside n0, inside n1 with
  | true, true =>
      if x - n0 * a <? n1 * a - x then Some (n0, p)
      else if n1 * a - x <? x - n0 * a then Some (n1, p)
      else if Z.even n0 then Some (n0, p) else Some (n1, p)
  | true, false => Some (n0, p)
  | false, true => Some (n1, p)
  | false, false => None
  end.

Fixpoint shortest (fuel : nat) (m : positive) (below num den e10 digits : Z)
  : Z * Z :=
  match fuel with
  | O => (4 * Z.pos m * num / unit_of (e10 + 1 - digits) den, e10 + 1 - digits)
  | S fuel' =>
      match candidate m below num den e10 digits with
      | Some c => c
      | None => shortest fuel' m below num den e10 (digits + 1)
      end
  end.

(** The digits and the position of the decimal point of a canonical
    positive float [m * 2 ^ e]. *)
Definition shortest_decimal (m : positive) (e : Z) : string * Z :=
  let num := if 0 <=? e - 2 then 2 ^ (e - 2) else 1 in
  let den := if 0 <=? e - 2 then 1 else 2 ^ (2 - e) in
  let below :=
    if (Z.pos m =? 2 ^ 52) && (-1074 <? e) then 4 * Z.pos m - 1
    else 4 * Z.pos m - 2 in
  let e10 := floor_log10 (4 * Z.pos m * num) den in
  let '(n, p) := shortest 17 m below num den e10 1 in
  let '(n, p) := strip_zeros 400 n p in
  let digits := int_str n in
  (digits, Z.of_nat (String.length digits) + p).

Fixpoint zeros (n : nat) : string :=
  match n with
  | O => ""
  | S n' => "0" ++ zeros n'
  end.

(** [float.__repr__], which [str] of a float is. *)
Definition float_repr (x : float) : string :=
  match normalize x with
  | S754_nan => "nan"
  | S754_infinity s => if s then "-inf" else "inf"
  | S754_zero s => if s then "-0.0" else "0.0"
  | S754_finite s m e =>
      let '(digits, decpt) := shortest_decimal m e in
      let len := Z.of_nat (String.length digits) in
      (if s then "-" else "") ++
      (if (decpt <=? -4) || (16 <? decpt) then
         let exponent := decpt - 1 in
         substring 0 1 digits
         ++ (if 1 <? len then "." ++ substring 1 (String.length digits) digits
             else "")
         ++ "e" ++ (if exponent <? 0 then "-" else "+")
         ++ two_digits (Z.abs exponent)
       else if decpt <=? 0 then
         "0." ++ zeros (Z.to_nat (- decpt)) ++ digits
       else if len <=? decpt then
         digits ++ zeros (Z.to_nat (decpt - len)) ++ ".0"
       else
         substring 0 (Z.to_nat decpt) digits ++ "."
         ++ substring (Z.to_nat decpt) (String.length digits) digits)
  end.

(** *** Text *)

Definition code (c : ascii) : Z := Z.of_N (N_of_ascii c).
Definition char (n : Z) : ascii := ascii_of_N (Z.to_N n).
Definition text (c : ascii) : string := String c "".

Definition hex_digit (n : Z) : string :=
  text (char (if n <? 10 then 48 + n else 87 + n)).

(** [format(n, "0<width>x")] *)
Fixpoint hex (width : nat) (n : Z) : string :=
  match width with
  | O => ""
  | S width' => hex width' (n / 16) ++ hex_digit (n mod 16)
  end.

(** The code points of a UTF-8 string. *)
Fixpoint code_points (bytes : list Z) : list Z :=
  match bytes with
  | [] => []
  | b :: rest =>
      if b <? 192 then b :: code_points rest
      else if b <? 224 then
        match rest with
        | c1 :: rest1 => (b mod 32 * 64 + c1 mod 64) :: code_points rest1
        | _ => b :: code_points rest
        end
      else if b <? 240 then
        match rest with
        | c1 :: c2 :: rest2 =>
            (b mod 16 * 4096 + c1 mod 64 * 64 + c2 mod 64)
            :: code_points rest2
        | _ => b :: code_points rest
        end
      else
        match rest with
        | c1 :: c2 :: c3 :: rest3 =>
            (b mod 8 * 262144 + c1 mod 64 * 4096 + c2 mod 64 * 64
             + c3 mod 64)
            :: code_points rest3
        | _ => b :: code_points rest
        end
  end.

Definition str_code_points (s : string) : list Z :=
  code_points (map code (list_ascii_of_string s)).

Definition quote : string := text (char 34).
Definition backslash : string := text (char 92).

(** One character of a JSON string with [ensure_ascii]. *)
Definition json_char (c : Z) : string :=
  if c =? 34 then backslash ++ quote
  else if c =? 92 then backslash ++ backslash
  else if c =? 10 then backslash ++ "n"
  else if c =? 13 then backslash ++ "r"
  else if c =? 9 then backslash ++ "t"
  else if c =? 8 then backslash ++ "b"
  else if c =? 12 then backslash ++ "f"
  else if (32 <=? c) && (c <=? 126) then text (char c)
  else if c <? 65536 then backslash ++ "u" ++ hex 4 c
  else
    backslash ++ "u" ++ hex 4 (55296 + (c - 65536) / 1024 mod 1024)
    ++ backslash ++ "u" ++ hex 4 (56320 + (c - 65536) mod 1024).

Definition json_string (s : string) : string :=
  quote ++ String.concat "" (map json_char (str_code_points s)) ++ quote.

Definition json_float (x : float) : string :=
  match normalize x with
  | S754_nan => "NaN"
  | S754_infinity s => if s then "-Infinity" else "Infinity"
  | _ => float_repr x
  end.

(** [json.dumps(v)] with its default separators. *)
Fixpoint json_dumps (v : value) : string :=
  match v with
  | PyNone => "null"
  | PyBool true => "true"
  | PyBool false => "false"
  | PyInt n => int_str n
  | PyFloat x => json_float x
  | PyStr s => json_string s
  | PyList items => "[" ++ String.concat ", " (map json_dumps items) ++ "]"
  | PyDict items =>
      "{"
      ++ String.concat ", "
           (map (fun kv => json_string (fst kv) ++ ": " ++ json_dumps (snd kv))
              items)
      ++ "}"
  end.

(** The code points from U+0080 on that [str.isprintable] refuses, as
    ranges with both ends in: separators, controls, format characters and
    the code points not assigned in Unicode 14.0.0, the database of
    CPython 3.11. *)
Definition not_printable : list (Z * Z) :=
  [ (128, 160); (173, 173); (888, 889); (896, 899); (907, 907); (909, 909);
    (930, 930); (1328, 1328); (1367, 1368); (1419, 1420); (1424, 1424);
    (1480, 1487); (1515, 1518); (1525, 1541); (1564, 1564); (1757, 1757);
    (1806, 1807); (1867, 1868); (1970, 1983); (2043, 2044); (2094, 2095);
    (2111, 2111); (2140, 2141); (2143, 2143); (2155, 2159); (2191, 2199);
    (2274, 2274); (2436, 2436); (2445, 2446); (2449, 2450); (2473, 2473);
    (2481, 2481); (2483, 2485); (2490, 2491); (2501, 2502); (2505, 2506);
    (2511, 2518); (2520, 2523); (2526, 2526); (2532, 2533); (2559, 2560);
    (2564, 2564); (2571, 2574); (2577, 2578); (2601, 2601); (2609, 2609);
    (2612, 2612); (2615, 2615); (2618, 2619); (2621, 2621); (2627, 2630);
    (2633, 2634); (2638, 2640); (2642, 2648); (2653, 2653); (2655, 2661);
    (2679, 2688); (2692, 2692); (2702, 2702); (2706, 2706); (2729, 2729);
    (2737, 2737); (2740, 2740); (2746, 2747); (2758, 2758); (2762, 2762);
    (2766, 2767); (2769, 2783); (2788, 2789); (2802, 2808); (2816, 2816);
    (2820, 2820); (2829, 2830); (2833, 2834); (2857, 2857); (2865, 2865);
    (2868, 2868); (2874, 2875); (2885, 2886); (2889, 2890); (2894, 2900);
    (2904, 2907); (2910, 2910); (2916, 2917); (2936, 2945); (2948, 2948);
    (2955, 2957); (2961, 2961); (2966, 2968); (2971, 2971); (2973, 2973);
    (2976, 2978); (2981, 2983); (2987, 2989); (3002, 3005); (3011, 3013);
    (3017, 3017); (3022, 3023); (3025, 3030); (3032, 3045); (3067, 3071);
    (3085, 3085); (3089, 3089); (3113, 3113); (3130, 3131); (3141, 3141);
    (3145, 3145); (3150, 3156); (3159, 3159); (3163, 3164); (3166, 3167);
    (3172, 3173); (3184, 3190); (3213, 3213); (3217, 3217); (3241, 3241);
    (3252, 3252); (3258, 3259); (3269, 3269); (3273, 3273); (3278, 3284);
    (3287, 3292); (3295, 3295); (3300, 3301); (3312, 3312); (3315, 3327);
    (3341, 3341); (3345, 3345); (3397, 3397); (3401, 3401); (3408, 3411);
    (3428, 3429); (3456, 3456); (3460, 3460); (3479, 3481); (3506, 3506);
    (3516, 3516); (3518, 3519); (3527, 3529); (3531, 3534); (3541, 3541);
    (3543, 3543); (3552, 3557); (3568, 3569); (3573, 3584); (3643, 3646);
    (3676, 3712); (3715, 3715); (3717, 3717); (3723, 3723); (3748, 3748);
    (3750, 3750); (3774, 3775); (3781, 3781); (3783, 3783); (3790, 3791);
    (3802, 3803); (3808, 3839); (3912, 3912); (3949, 3952); (3992, 3992);
    (4029, 4029); (4045, 4045); (4059, 4095); (4294, 4294); (4296, 4300);
    (4302, 4303); (4681, 4681); (4686, 4687); (4695, 4695); (4697, 4697);
    (4702, 4703); (4745, 4745); (4750, 4751); (4785, 4785); (4790, 4791);
    (4799, 4799); (4801, 4801); (4806, 4807); (4823, 4823); (4881, 4881);
    (4886, 4887); (4955, 4956); (4989, 4991); (5018, 5023); (5110, 5111);
    (5118, 5119); (5760, 5760); (5789, 5791); (5881, 5887); (5910, 5918);
    (5943, 5951); (5972, 5983); (5997, 5997); (6001, 6001); (6004, 6015);
    (6110, 6111); (6122, 6127); (6138, 6143); (6158, 6158); (6170, 6175);
    (6265, 6271); (6315, 6319); (6390, 6399); (6431, 6431); (6444, 6447);
    (6460, 6463); (6465, 6467); (6510, 6511); (6517, 6527); (6572, 6575);
    (6602, 6607); (6619, 6621); (6684, 6685); (6751, 6751); (6781, 6782);
    (6794, 6799); (6810, 6815); (6830, 6831); (6863, 6911); (6989, 6991);
    (7039, 7039); (7156, 7163); (7224, 7226); (7242, 7244); (7305, 7311);
    (7355, 7356); (7368, 7375); (7419, 7423); (7958, 7959); (7966, 7967);
    (8006, 8007); (8014, 8015); (8024, 8024); (8026, 8026); (8028, 8028);
    (8030, 8030); (8062, 8063); (8117, 8117); (8133, 8133); (8148, 8149);
    (8156, 8156); (8176, 8177); (8181, 8181); (8191, 8207); (8232, 8239);
    (8287, 8303); (8306, 8307); (8335, 8335); (8349, 8351); (8385, 8399);
    (8433, 8447); (8588, 8591); (9255, 9279); (9291, 9311); (11124, 11125);
    (11158, 11158); (11508, 11512); (11558, 11558); (11560, 11564);
    (11566, 11567); (11624, 11630); (11633, 11646); (11671, 11679);
    (11687, 11687); (11695, 11695); (11703, 11703); (11711, 11711);
    (11719, 11719); (11727, 11727); (11735, 11735); (11743, 11743);
    (11870, 11903); (11930, 11930); (12020, 12031); (12246, 12271);
    (12284, 12288); (12352, 12352); (12439, 12440); (12544, 12548);
    (12592, 12592); (12687, 12687); (12772, 12783); (12831, 12831);
    (42125, 42127); (42183, 42191); (42540, 42559); (42744, 42751);
    (42955, 42959); (42962, 42962); (42964, 42964); (42970, 42993);
    (43053, 43055); (43066, 43071); (43128, 43135); (43206, 43213);
    (43226, 43231); (43348, 43358); (43389, 43391); (43470, 43470);
    (43482, 43485); (43519, 43519); (43575, 43583); (43598, 43599);
    (43610, 43611); (43715, 43738); (43767, 43776); (43783, 43784);
    (43791, 43792); (43799, 43807); (43815, 43815); (43823, 43823);
    (43884, 43887); (44014, 44015); (44026, 44031); (55204, 55215);
    (55239, 55242); (55292, 63743); (64110, 64111); (64218, 64255);
    (64263, 64274); (64280, 64284); (64311, 64311); (64317, 64317);
    (64319, 64319); (64322, 64322); (64325, 64325); (64451, 64466);
    (64912, 64913); (64968, 64974); (64976, 65007); (65050, 65055);
    (65107, 65107); (65127, 65127); (65132, 65135); (65141, 65141);
    (65277, 65280); (65471, 65473); (65480, 65481); (65488, 65489);
    (65496, 65497); (65501, 65503); (65511, 65511); (65519, 65531);
    (65534, 65535); (65548, 65548); (65575, 65575); (65595, 65595);
    (65598, 65598); (65614, 65615); (65630, 65663); (65787, 65791);
    (65795, 65798); (65844, 65846); (65935, 65935); (65949, 65951);
    (65953, 65999); (66046, 66175); (66205, 66207); (66257, 66271);
    (66300, 66303); (66340, 66348); (66379, 66383); (66427, 66431);
    (66462, 66462); (66500, 66503); (66518, 66559); (66718, 66719);
    (66730, 66735); (66772, 66775); (66812, 66815); (66856, 66863);
    (66916, 66926); (66939, 66939); (66955, 66955); (66963, 66963);
    (66966, 66966); (66978, 66978); (66994, 66994); (67002, 67002);
    (67005, 67071); (67383, 67391); (67414, 67423); (67432, 67455);
    (67462, 67462); (67505, 67505); (67515, 67583); (67590, 67591);
    (67593, 67593); (67638, 67638); (67641, 67643); (67645, 67646);
    (67670, 67670); (67743, 67750); (67760, 67807); (67827, 67827);
    (67830, 67834); (67868, 67870); (67898, 67902); (67904, 67967);
    (68024, 68027); (68048, 68049); (68100, 68100); (68103, 68107);
    (68116, 68116); (68120, 68120); (68150, 68151); (68155, 68158);
    (68169, 68175); (68185, 68191); (68256, 68287); (68327, 68330);
    (68343, 68351); (68406, 68408); (68438, 68439); (68467, 68471);
    (68498, 68504); (68509, 68520); (68528, 68607); (68681, 68735);
    (68787, 68799); (68851, 68857); (68904, 68911); (68922, 69215);
    (69247, 69247); (69290, 69290); (69294, 69295); (69298, 69375);
    (69416, 69423); (69466, 69487); (69514, 69551); (69580, 69599);
    (69623, 69631); (69710, 69713); (69750, 69758); (69821, 69821);
    (69827, 69839); (69865, 69871); (69882, 69887); (69941, 69941);
    (69960, 69967); (70007, 70015); (70112, 70112); (70133, 70143);
    (70162, 70162); (70207, 70271); (70279, 70279); (70281, 70281);
    (70286, 70286); (70302, 70302); (70314, 70319); (70379, 70383);
    (70394, 70399); (70404, 70404); (70413, 70414); (70417, 70418);
    (70441, 70441); (70449, 70449); (70452, 70452); (70458, 70458);
    (70469, 70470); (70473, 70474); (70478, 70479); (70481, 70486);
    (70488, 70492); (70500, 70501); (70509, 70511); (70517, 70655);
    (70748, 70748); (70754, 70783); (70856, 70863); (70874, 71039);
    (71094, 71095); (71134, 71167); (71237, 71247); (71258, 71263);
    (71277, 71295); (71354, 71359); (71370, 71423); (71451, 71452);
    (71468, 71471); (71495, 71679); (71740, 71839); (71923, 71934);
    (71943, 71944); (71946, 71947); (71956, 71956); (71959, 71959);
    (71990, 71990); (71993, 71994); (72007, 72015); (72026, 72095);
    (72104, 72105); (72152, 72153); (72165, 72191); (72264, 72271);
    (72355, 72367); (72441, 72703); (72713, 72713); (72759, 72759);
    (72774, 72783); (72813, 72815); (72848, 72849); (72872, 72872);
    (72887, 72959); (72967, 72967); (72970, 72970); (73015, 73017);
    (73019, 73019); (73022, 73022); (73032, 73039); (73050, 73055);
    (73062, 73062); (73065, 73065); (73103, 73103); (73106, 73106);
    (73113, 73119); (73130, 73439); (73465, 73647); (73649, 73663);
    (73714, 73726); (74650, 74751); (74863, 74863); (74869, 74879);
    (75076, 77711); (77811, 77823); (78895, 82943); (83527, 92159);
    (92729, 92735); (92767, 92767); (92778, 92781); (92863, 92863);
    (92874, 92879); (92910, 92911); (92918, 92927); (92998, 93007);
    (93018, 93018); (93026, 93026); (93048, 93052); (93072, 93759);
    (93851, 93951); (94027, 94030); (94088, 94094); (94112, 94175);
    (94181, 94191); (94194, 94207); (100344, 100351); (101590, 101631);
    (101641, 110575); (110580, 110580); (110588, 110588); (110591, 110591);
    (110883, 110927); (110931, 110947); (110952, 110959); (111356, 113663);
    (113771, 113775); (113789, 113791); (113801, 113807); (113818, 113819);
    (113824, 118527); (118574, 118575); (118599, 118607); (118724, 118783);
    (119030, 119039); (119079, 119080); (119155, 119162); (119275, 119295);
    (119366, 119519); (119540, 119551); (119639, 119647); (119673, 119807);
    (119893, 119893); (119965, 119965); (119968, 119969); (119971, 119972);
    (119975, 119976); (119981, 119981); (119994, 119994); (119996, 119996);
    (120004, 120004); (120070, 120070); (120075, 120076); (120085, 120085);
    (120093, 120093); (120122, 120122); (120127, 120127); (120133, 120133);
    (120135, 120137); (120145, 120145); (120486, 120487); (120780, 120781);
    (121484, 121498); (121504, 121504); (121520, 122623); (122655, 122879);
    (122887, 122887); (122905, 122906); (122914, 122914); (122917, 122917);
    (122923, 123135); (123181, 123183); (123198, 123199); (123210, 123213);
    (123216, 123535); (123567, 123583); (123642, 123646); (123648, 124895);
    (124903, 124903); (124908, 124908); (124911, 124911); (124927, 124927);
    (125125, 125126); (125143, 125183); (125260, 125263); (125274, 125277);
    (125280, 126064); (126133, 126208); (126270, 126463); (126468, 126468);
    (126496, 126496); (126499, 126499); (126501, 126502); (126504, 126504);
    (126515, 126515); (126520, 126520); (126522, 126522); (126524, 126529);
    (126531, 126534); (126536, 126536); (126538, 126538); (126540, 126540);
    (126544, 126544); (126547, 126547); (126549, 126550); (126552, 126552);
    (126554, 126554); (126556, 126556); (126558, 126558); (126560, 126560);
    (126563, 126563); (126565, 126566); (126571, 126571); (126579, 126579);
    (126584, 126584); (126589, 126589); (126591, 126591); (126602, 126602);
    (126620, 126624); (126628, 126628); (126634, 126634); (126652, 126703);
    (126706, 126975); (127020, 127023); (127124, 127135); (127151, 127152);
    (127168, 127168); (127184, 127184); (127222, 127231); (127406, 127461);
    (127491, 127503); (127548, 127551); (127561, 127567); (127570, 127583);
    (127590, 127743); (128728, 128732); (128749, 128751); (128765, 128767);
    (128884, 128895); (128985, 128991); (129004, 129007); (129009, 129023);
    (129036, 129039); (129096, 129103); (129114, 129119); (129160, 129167);
    (129198, 129199); (129202, 129279); (129620, 129631); (129646, 129647);
    (129653, 129655); (129661, 129663); (129671, 129679); (129709, 129711);
    (129723, 129727); (129734, 129743); (129754, 129759); (129768, 129775);
    (129783, 129791); (129939, 129939); (129995, 130031); (130042, 131071);
    (173792, 173823); (177977, 177983); (178206, 178207); (183970, 183983);
    (191457, 194559); (195102, 196607); (201547, 917759); (918000, 1114111) ].

Definition printable (c : Z) : bool :=
  if c <? 128 then (32 <=? c) && (c <? 127)
  else negb (existsb (fun r => (fst r <=? c) && (c <=? snd r)) not_printable).

(** The UTF-8 bytes of a code point. *)
Definition utf8 (c : Z) : string :=
  if c <? 128 then text (char c)
  else if c <? 2048 then
    text (char (192 + c / 64)) ++ text (char (128 + c mod 64))
  else if c <? 65536 then
    text (char (224 + c / 4096)) ++ text (char (128 + c / 64 mod 64))
    ++ text (char (128 + c mod 64))
  else
    text (char (240 + c / 262144)) ++ text (char (128 + c / 4096 mod 64))
    ++ text (char (128 + c / 64 mod 64)) ++ text (char (128 + c mod 64)).

(** One character of [repr] of a string between [delimiter]s: the
    delimiter and the backslash are escaped, tab, newline and return have
    their letter, a character that is not printable is written by its
    code in two, four or eight hexadecimal digits, anything else is
    itself. *)
Definition repr_char (delimiter c : Z) : string :=
  if (c =? delimiter) || (c =? 92) then backslash ++ text (char c)
  else if c =? 9 then backslash ++ "t"
  else if c =? 10 then backslash ++ "n"
  else if c =? 13 then backslash ++ "r"
  else if printable c then utf8 c
  else if c <? 256 then backslash ++ "x" ++ hex 2 c
  else if c <? 65536 then backslash ++ "u" ++ hex 4 c
  else backslash ++ "U" ++ hex 8 c.

Definition has_char (n : Z) (s : string) : bool :=
  existsb (fun c => code c =? n) (list_ascii_of_string s).

(** [repr(s)]: single quotes, unless the string has one and no double
    quote. *)
Definition str_repr (s : string) : string :=
  let delimiter := if has_char 39 s && negb (has_char 34 s) then 34 else 39 in
  text (char delimiter)
  ++ String.concat "" (map (repr_char delimiter) (str_code_points s))
  ++ text (char delimiter).

(** [repr(v)], which [str] of a list or a dict is built from. *)
Fixpoint repr (v : value) : string :=
  match v with
  | PyNone => "None"
  | PyBool true => "True"
  | PyBool false => "False"
  | PyInt n => int_str n
  | PyFloat x => float_repr x
  | PyStr s => str_repr s
  | PyList items => "[" ++ String.concat ", " (map repr items) ++ "]"
  | PyDict items =>
      "{"
      ++ String.concat ", "
           (map (fun kv => str_repr (fst kv) ++ ": " ++ repr (snd kv)) items)
      ++ "}"
  end.

Definition runtime : Runtime :=
  Build_Runtime format_2f float_repr repr json_dumps.

End CPython.

(** ** What the specification words say, where the code says otherwise *)

(** The description of the payload with a blank suffix: the name and no
    added text. *)
Definition specified_description (name : string) : string := name ++ "".

(** The name sent to the carousel: the last created product's name, or
    "Product" if no product was created in the session. *)
Definition specified_carousel_name (a : ProductAssistant) : string :=
  match _last_product_name a with
  | Some name => name
  | None => "Product"
  end.

(** A field of an object. *)
Definition value_field (key : string) (v : value) : option value :=
  match v with
  | PyDict items => dict_lookup key items
  | _ => None
  end.

(** ** A worked session *)

Module Scenario.

Definition url : string := "https://jatango.example".
Definition key : string := "service-role-key".

(** 12.0 ounces and 9.5 dollars *)
Definition twelve : float := float_of_Z 12.
Definition nine_fifty : float := binary_normalize 53 1024 19 (-1) false.

Definition participant (k : rtc.ParticipantKind) : rtc.RemoteParticipant :=
  {| rtc.kind := k |}.

(** A room with the agent, the seller and a viewer, and one with agents
    only. *)
Definition studio : JobContext :=
  {| room :=
       {| rtc.remote_participants :=
            [ ("agent-7", participant rtc.PARTICIPANT_KIND_AGENT);
              ("alice", participant rtc.PARTICIPANT_KIND_STANDARD);
              ("bob", participant rtc.PARTICIPANT_KIND_STANDARD) ] |} |}.

Definition backstage : JobContext :=
  {| room :=
       {| rtc.remote_participants :=
            [ ("agent-7", participant rtc.PARTICIPANT_KIND_AGENT);
              ("agent-9", participant rtc.PARTICIPANT_KIND_AGENT) ] |} |}.

(** Answers of the endpoint: the created row in a list, a refusal, a row
    without an id, an empty list. *)
Definition created : httpx.Response :=
  {| httpx.status_code := 201;
     httpx.status_error := "";
     httpx.body :=
       inr (PyList [PyDict [("id", PyStr "b1946ac9"); ("weight_unit", PyStr "oz")]]) |}.

Definition refused : httpx.Response :=
  {| httpx.status_code := 401;
     httpx.status_error := "Client error '401 Unauthorized'";
     httpx.body := inr (PyDict [("message", PyStr "Invalid API key")]) |}.

Definition created_without_id : httpx.Response :=
  {| httpx.status_code := 201;
     httpx.status_error := "";
     httpx.body := inr (PyList [PyDict [("weight_unit", PyStr "oz")]]) |}.

Definition created_nothing : httpx.Response :=
  {| httpx.status_code := 200;
     httpx.status_error := "";
     httpx.body := inr (PyList []) |}.

(** Peers: one that answers, one that lets the call time out. *)
Definition answering (call : rtc.RpcInvocation) : exn + string := inr "added".

Definition silent (call : rtc.RpcInvocation) : exn + string :=
  inl (Exn "RpcError" "Response timeout").

Definition on_air (job : JobContext) (answer : httpx.Response)
    (peer : rtc.RpcInvocation -> exn + string) : Env :=
  {| job_context := inr job;
     endpoint := fun _ => inr answer;
     peer := peer |}.

(** The session after a mug was created. *)
Definition after_mug : Session :=
  {| self := {| _last_product_id := PyStr "b1946ac9";
                _last_product_name := Some "Mug" |};
     posted := [insert_request url key "alice" "Mug" twelve nine_fifty 3];
     rpcs := [] |}.

(** A conversation: a product with a blank name is created, then put on
    the carousel. *)
Definition blank_name : list string * Session :=
  run_calls (runtime := CPython.runtime) url key
    [ (on_air studio created answering, CreateProduct "" twelve nine_fifty 3);
      (on_air studio created answering, AddProductToShow "b1946ac9") ]
    new_session.

(** The session after its first call. *)
Definition after_blank_name : Session :=
  snd (create_product (runtime := CPython.runtime) url key
         "" twelve nine_fifty 3 (on_air studio created answering) new_session).

End Scenario.

(** ** The settings and the traffic of the tools *)

(** The two settings, as the module reads them at import:
    [load_dotenv(".env.local")] adds the variables of the file that the
    process environment does not have, then [os.getenv(name, "")] reads
    each setting. *)
Module Config.

Fixpoint lookup (name : string) (variables : list (string * string))
  : option string :=
  match variables with
  | [] => None
  | (k, v) :: rest => if String.eqb k name then Some v else lookup name rest
  end.

(** [load_dotenv(path)] with its default [override=False]: a variable of
    the file is set when the environment has none of that name.  [file] is
    the dict the file is parsed to, each name once; a missing file is the
    empty dict. *)
Fixpoint load_dotenv (file environ : list (string * string))
  : list (string * string) :=
  match file with
  | [] => environ
  | (k, v) :: rest =>
      match lookup k environ with
      | Some _ => load_dotenv rest environ
      | None => load_dotenv rest (environ ++ [(k, v)])
      end
  end.

(** [os.getenv(name, default)] *)
Definition getenv (environ : list (string * string)) (name default : string)
  : string :=
  match lookup name environ with
  | Some v => v
  | None => default
  end.

Definition SUPABASE_URL (file environ : list (string * string)) : string :=
  getenv (load_dotenv file environ) "SUPABASE_URL" "".

Definition SUPABASE_SERVICE_ROLE_KEY (file environ : list (string * string))
  : string :=
  getenv (load_dotenv file environ) "SUPABASE_SERVICE_ROLE_KEY" "".

End Config.

(** The text [create_product] returns on success. *)
Definition summary {runtime : Runtime} (name : string) (weight price : float)
    (quantity : Z) (product_id : value) : string :=
  "Product created successfully. "
  ++ "Name: " ++ name ++ ", Price: $" ++ format_2f price
  ++ ", Weight: " ++ float_str weight ++ "oz, "
  ++ "Quantity: " ++ int_str quantity
  ++ ". Product ID: " ++ py_str product_id.

(** The one call [add_product_to_show] issues, to [broadcaster]. *)
Definition carousel_call {runtime : Runtime} (broadcaster product_id : string)
    (a : ProductAssistant) : rtc.RpcInvocation :=
  {| rtc.destination_identity := broadcaster;
     rtc.method := "addProductToShow";
     rtc.payload :=
       json_dumps
         (PyDict
            [ ("productId", PyStr product_id);
              ("name", PyStr (or_default (_last_product_name a) "Product")) ]);
     rtc.response_timeout := float_of_Z 10 |}.

(** A session with one more request posted, or one more call issued. *)
Definition with_posted (s : Session) (req : httpx.Request) : Session :=
  {| self := self s; posted := posted s ++ [req]; rpcs := rpcs s |}.

Definition with_rpc (s : Session) (call : rtc.RpcInvocation) : Session :=
  {| self := self s; posted := posted s; rpcs := rpcs s ++ [call] |}.

Definition remember (s : Session) (product_id : value) (name : string)
  : Session :=
  {| self := {| _last_product_id := product_id;
                _last_product_name := Some name |};
     posted := posted s;
     rpcs := rpcs s |}.

(** The same session under another remembered id. *)
Definition with_last_product_id (s : Session) (v : value) : Session :=
  {| self := {| _last_product_id := v;
                _last_product_name := _last_product_name (self s) |};
     posted := posted s;
     rpcs := rpcs s |}.

(** The calls of each tool in a conversation. *)
Definition is_create (t : ToolCall) : bool :=
  match t with
  | CreateProduct _ _ _ _ => true
  | AddProductToShow _ => false
  end.

Definition creations (calls : list (Env * ToolCall)) : nat :=
  List.length (filter (fun c => is_create (snd c)) calls).

Definition showings (calls : list (Env * ToolCall)) : nat :=
  List.length (filter (fun c => negb (is_create (snd c))) calls).

(** Where the traffic of a conversation comes from: a name was given to
    a creation; a request is the insertion of a creation, under a seller
    of its room; a call is the one of a showing, to a broadcaster of its
    room, under the fallback name or a name given to a creation. *)
Definition created_in (calls : list (Env * ToolCall)) (name : string) : Prop :=
  exists env weight price quantity,
    In (env, CreateProduct name weight price quantity) calls.

Definition posted_in (url key : string) (calls : list (Env * ToolCall))
    (req : httpx.Request) : Prop :=
  exists env name weight price quantity seller,
    In (env, CreateProduct name weight price quantity) calls
    /\ seller_in_room env seller
    /\ req = insert_request url key seller name weight price quantity.

Definition shown_in {runtime : Runtime} (calls : list (Env * ToolCall))
    (call : rtc.RpcInvocation) : Prop :=
  exists env product_id broadcaster name,
    In (env, AddProductToShow product_id) calls
    /\ seller_in_room env broadcaster
    /\ (name = "Product" \/ created_in calls name)
    /\ call
       = {| rtc.destination_identity := broadcaster;
            rtc.method := "addProductToShow";
            rtc.payload :=
              json_dumps
                (PyDict [("productId", PyStr product_id); ("name", PyStr name)]);
            rtc.response_timeout := float_of_Z 10 |}.

(** The assistant remembers nothing, or a name given to a creation. *)
Definition remembers_from (calls : list (Env * ToolCall))
    (a : ProductAssistant) : Prop :=
  match _last_product_name a with
  | None => _last_product_id a = PyNone
  | Some name => created_in calls name
  end.

(** More rooms, answers and peers for the worked session. *)
Module Rehearsal.

Import Scenario.

(** A room whose first participant that is not an agent has a blank
    identity. *)
Definition nameless : JobContext :=
  {| room :=
       {| rtc.remote_participants :=
            [ ("agent-7", participant rtc.PARTICIPANT_KIND_AGENT);
              ("", participant rtc.PARTICIPANT_KIND_SIP);
              ("bob", participant rtc.PARTICIPANT_KIND_STANDARD) ] |} |}.

(** Outside a job. *)
Definition no_job : exn := Exn "RuntimeError" "no job context found".

Definition off_air (answer : httpx.Response)
    (peer : rtc.RpcInvocation -> exn + string) : Env :=
  {| job_context := inl no_job;
     endpoint := fun _ => inr answer;
     peer := peer |}.

(** An endpoint that cannot be reached. *)
Definition unreachable : exn := Exn "ConnectError" "All connection attempts failed".

Definition cut_off (job : JobContext) : Env :=
  {| job_context := inr job;
     endpoint := fun _ => inl unreachable;
     peer := answering |}.

(** Answers: a body that is not JSON, the row [null], a row whose id is
    [null], a row whose id is blank, two rows. *)
Definition not_json : httpx.Response :=
  {| httpx.status_code := 200;
     httpx.status_error := "";
     httpx.body := inl (Exn "JSONDecodeError" "Expecting value: line 1 column 1 (char 0)") |}.

Definition null_row : httpx.Response :=
  {| httpx.status_code := 201;
     httpx.status_error := "";
     httpx.body := inr (PyList [PyNone]) |}.

Definition null_id : httpx.Response :=
  {| httpx.status_code := 201;
     httpx.status_error := "";
     httpx.body := inr (PyDict [("id", PyNone)]) |}.

Definition blank_id : httpx.Response :=
  {| httpx.status_code := 201;
     httpx.status_error := "";
     httpx.body :=
       inr (PyList [PyDict [("id", PyStr ""); ("weight_unit", PyStr "oz")]]) |}.

Definition two_rows : httpx.Response :=
  {| httpx.status_code := 201;
     httpx.status_error := "";
     httpx.body :=
       inr (PyList [PyDict [("id", PyInt 41)]; PyDict [("id", PyInt 42)]]) |}.

(** A conversation: a mug is created, a second creation is refused, the
    mug is put on the carousel. *)
Definition evening : list (Env * ToolCall) :=
  [ (on_air studio created answering, CreateProduct "Mug" twelve nine_fifty 3);
    (on_air studio refused answering, CreateProduct "Cup" twelve nine_fifty 1);
    (on_air studio created answering, AddProductToShow "b1946ac9") ].

End Rehearsal.

(** * Properties *)

(** ** The two scans of the room *)

Lemma seller_scan_first (r : rtc.Room) :
  seller_scan (rtc.remote_participants r) = first_non_agent r.
Proof.
  unfold first_non_agent.
  induction (rtc.remote_participants r) as [| [identity participant] rest IH];
    simpl; [reflexivity |].
  unfold is_agent at 1; simpl.
  destruct (rtc.kind_eqb (rtc.kind participant) rtc.PARTICIPANT_KIND_AGENT);
    simpl; [exact IH | reflexivity].
Qed.

Lemma broadcaster_scan_first (r : rtc.Room) :
  broadcaster_scan None (rtc.remote_participants r) = first_non_agent r.
Proof.
  unfold first_non_agent.
  induction (rtc.remote_participants r) as [| [identity participant] rest IH];
    simpl; [reflexivity |].
  unfold is_agent at 1; simpl.
  destruct (rtc.kind_eqb (rtc.kind participant) rtc.PARTICIPANT_KIND_AGENT);
    simpl; [exact IH | reflexivity].
Qed.

Lemma only_agents_first (r : rtc.Room) :
  only_agents r -> first_non_agent r = None.
Proof.
  unfold only_agents, first_non_agent.
  induction 1 as [| entry rest Hentry _ IH]; simpl; [reflexivity |].
  rewrite Hentry; simpl. exact IH.
Qed.

Lemma first_non_agent_None (r : rtc.Room) :
  first_non_agent r = None -> only_agents r.
Proof.
  unfold only_agents, first_non_agent.
  induction (rtc.remote_participants r) as [| entry rest IH]; simpl; intros Hnone.
  - constructor.
  - destruct (is_agent (snd entry)) eqn:Hkind; simpl in Hnone.
    + constructor; [exact Hkind | exact (IH Hnone)].
    + discriminate Hnone.
Qed.

(** What [get_seller_id_from_room] comes to: it never raises and leaves
    the session alone. *)
Lemma get_seller_id_from_room_run (env : Env) (s : Session) :
  get_seller_id_from_room env s =
  (inr match job_context env with
       | inr ctx => first_non_agent (room ctx)
       | inl _ => None
       end, s).
Proof.
  unfold get_seller_id_from_room, try_except, bind, get_job_context, ret.
  destruct (job_context env) as [e | ctx]; [reflexivity |].
  rewrite seller_scan_first. reflexivity.
Qed.

(** ** The two decimals of [".2f"] *)

(** [half_even] gives a nearest integer. *)
Lemma half_even_nearest (num den : Z) :
  0 < den ->
  2 * Z.abs (num - CPython.half_even num den * den) <= den.
Proof.
  intros Hden. unfold CPython.half_even.
  pose proof (Z.div_mod num den ltac:(lia)) as Hdiv.
  pose proof (Z.mod_pos_bound num den Hden) as Hmod.
  set (q := num / den) in *. set (r := num mod den) in *.
  destruct (Z.ltb_spec (2 * r) den) as [Hlow | Hlow].
  - replace (num - q * den) with r by lia. lia.
  - destruct (Z.ltb_spec den (2 * r)) as [Hhigh | Hhigh].
    + replace (num - (q + 1) * den) with (r - den) by lia. lia.
    + destruct (Z.even q).
      * replace (num - q * den) with r by lia. lia.
      * replace (num - (q + 1) * den) with (r - den) by lia. lia.
Qed.

Lemma two_digits_length (n : Z) :
  0 <= n < 100 -> String.length (CPython.two_digits n) = 2%nat.
Proof.
  intros Hn.
  assert (Hall :
    forallb (fun k => Nat.eqb (String.length (CPython.two_digits (Z.of_nat k))) 2)
      (seq 0 100) = true) by (vm_compute; reflexivity).
  rewrite forallb_forall in Hall.
  specialize (Hall (Z.to_nat n)).
  rewrite Z2Nat.id in Hall by lia.
  apply Nat.eqb_eq, Hall, in_seq. lia.
Qed.

(** On a finite float [m * 2 ^ e], [".2f"] prints the sign, the hundredths
    [n] nearest to the exact value as a whole part, and exactly two
    digits after the point. *)
Lemma format_2f_two_decimals (x : float) (s : bool) (m : positive) (e : Z) :
  CPython.normalize x = S754_finite s m e ->
  exists n,
    CPython.format_2f x
    = (if s then "-" else "") ++ int_str (n / 100) ++ "."
      ++ CPython.two_digits (n mod 100)
    /\ String.length (CPython.two_digits (n mod 100)) = 2%nat
    /\ (0 <= e -> n = 100 * Z.pos m * 2 ^ e)
    /\ (e < 0 -> 2 * Z.abs (100 * Z.pos m - n * 2 ^ (- e)) <= 2 ^ (- e)).
Proof.
  intros Hfinite. unfold CPython.format_2f. rewrite Hfinite.
  destruct (Z.leb_spec 0 e) as [He | He].
  - exists (100 * Z.pos m * 2 ^ e). split; [reflexivity |].
    split; [apply two_digits_length, Z.mod_pos_bound; lia |].
    split; [reflexivity | lia].
  - exists (CPython.half_even (100 * Z.pos m) (2 ^ (- e))).
    split; [reflexivity |].
    split; [apply two_digits_length, Z.mod_pos_bound; lia |].
    split; [lia |]. intros _.
    apply half_even_nearest. apply Z.pow_pos_nonneg; lia.
Qed.

(** A tool call returns: no [Exception] crosses it. *)
Lemma call_tool_returns {runtime : Runtime} (url key : string) (t : ToolCall)
    (env : Env) (s : Session) :
  exists reply, fst (call_tool url key t env s) = inr reply.
Proof.
  destruct t as [name weight price quantity | product_id]; simpl.
  - unfold create_product, bind at 1.
    rewrite get_seller_id_from_room_run.
    destruct (negb _); [eexists; reflexivity |].
    unfold try_except.
    destruct (bind _ _ env s) as [[e | reply] s']; eexists; reflexivity.
  - unfold add_product_to_show, try_except.
    destruct (bind _ _ env s) as [[e | reply] s']; eexists; reflexivity.
Qed.

Section Properties.

Context {runtime : Runtime}.
Variable SUPABASE_URL : string.
Variable SUPABASE_SERVICE_ROLE_KEY : string.

(** What [supabase_insert_product] comes to: one request goes out, and
the answer decides between the normalized object and an exception. *)
Lemma supabase_insert_product_run seller_id name weight cost quantity env s :
  supabase_insert_product SUPABASE_URL SUPABASE_SERVICE_ROLE_KEY
    seller_id name weight cost quantity env s =
  (match endpoint env
           (insert_request SUPABASE_URL SUPABASE_SERVICE_ROLE_KEY
              seller_id name weight cost quantity) with
   | inl e => inl e
   | inr resp =>
       if httpx.is_success resp then
         match httpx.body resp with
         | inl e => inl e
         | inr data =>
             match normalized data with
             | Some object => inr object
             | None => inl (Exn "IndexError" "list index out of range")
             end
         end
       else inl (Exn "HTTPStatusError" (httpx.status_error resp))
   end,
   {| self := self s;
      posted :=
        posted s
        ++ [insert_request SUPABASE_URL SUPABASE_SERVICE_ROLE_KEY
              seller_id name weight cost quantity];
      rpcs := rpcs s |}).
Proof.
  unfold supabase_insert_product, insert_request, bind,
    client_post, raise_for_status, response_json, lift, list_getitem0.
  cbn [self posted rpcs].
  destruct (endpoint env _) as [e | resp]; [reflexivity |].
  destruct (httpx.is_success resp); [| reflexivity].
  unfold ret at 1.
  destruct (httpx.body resp) as [e | data]; [reflexivity |].
  destruct data as [| b | n | x | t | [| first others] | items]; reflexivity.
Qed.

Lemma seller_in_room_run env seller s :
  seller_in_room env seller ->
  get_seller_id_from_room env s = (inr (Some seller), s)
  /\ truthy (Some seller) = true.
Proof.
  intros (ctx & Hctx & Hfirst & Hblank).
  rewrite get_seller_id_from_room_run, Hctx, Hfirst. split; [reflexivity |].
  unfold truthy. destruct (String.eqb_spec seller ""); [contradiction | reflexivity].
Qed.

Lemma is_success_iff resp :
  httpx.is_success resp = true <-> 200 <= httpx.status_code resp <= 299.
Proof. unfold httpx.is_success. rewrite andb_true_iff, !Z.leb_le. tauto. Qed.

Lemma int_str_not_blank n : int_str n <> "".
Proof.
  unfold int_str.
  assert (Huint : forall d, NilZero.string_of_uint d <> "").
  { intros d. unfold NilZero.string_of_uint. destruct d; simpl; discriminate. }
  destruct (Z.to_int n) as [d | d]; simpl.
  - apply Huint.
  - discriminate.
Qed.

Lemma identifier_not_blank v : is_identifier v = true -> py_str v <> "".
Proof.
  destruct v; simpl; try discriminate.
  - intros _. apply int_str_not_blank.
  - destruct (String.eqb_spec s ""); [discriminate | auto].
Qed.

(** ** Resolving the seller and the broadcaster *)

(** C10: on one snapshot of the room, the seller lookup of
[create_product] and the broadcaster lookup of [add_product_to_show]
give the same result: the identity of the first participant in
iteration order whose kind is not agent, and nothing exactly when the
room has no participant but agents. *)
Theorem scans_agree (ctx : JobContext) (endpoint : httpx.Request -> exn + httpx.Response)
    (peer : rtc.RpcInvocation -> exn + string) (s : Session) :
  let participants := rtc.remote_participants (room ctx) in
  get_seller_id_from_room
    {| job_context := inr ctx; endpoint := endpoint; peer := peer |} s
  = (inr (broadcaster_scan None participants), s)
  /\ seller_scan participants = broadcaster_scan None participants
  /\ broadcaster_scan None participants = first_non_agent (room ctx)
  /\ (broadcaster_scan None participants = None <-> only_agents (room ctx)).
Proof.
  cbv zeta.
  rewrite get_seller_id_from_room_run, broadcaster_scan_first, seller_scan_first.
  repeat split.
  - apply first_non_agent_None.
  - apply only_agents_first.
Qed.

(** C3: in a room with no participant but agents, [create_product]
returns exactly the seller error and the session is as it was: nothing
was posted to the endpoint. *)
Theorem create_product_without_seller name weight price quantity env s ctx :
  job_context env = inr ctx ->
  only_agents (room ctx) ->
  create_product SUPABASE_URL SUPABASE_SERVICE_ROLE_KEY
    name weight price quantity env s
  = (inr "Error: Could not determine seller identity.", s).
Proof.
  intros Hctx Hagents.
  unfold create_product, bind.
  rewrite get_seller_id_from_room_run, Hctx, (only_agents_first _ Hagents).
  reflexivity.
Qed.

(** C7: in a room with no participant but agents, [add_product_to_show]
returns exactly the broadcaster error and the session is as it was: no
remote procedure call was issued. *)
Theorem add_product_to_show_without_broadcaster product_id env s ctx :
  job_context env = inr ctx ->
  only_agents (room ctx) ->
  add_product_to_show product_id env s
  = (inr "Error: No broadcaster found in the room.", s).
Proof.
  intros Hctx Hagents.
  unfold add_product_to_show, try_except, bind, get_job_context.
  rewrite Hctx, broadcaster_scan_first, (only_agents_first _ Hagents).
  reflexivity.
Qed.

(** ** Persistence *)

(** C2: when the endpoint answers the request of [create_product] with a
status outside 200..299, the tool returns "Error creating product: "
followed by the text of the status error, and the two attributes of the
assistant are as they were. *)
Theorem create_product_status_error name weight price quantity env s seller resp :
  seller_in_room env seller ->
  endpoint env
    (insert_request SUPABASE_URL SUPABASE_SERVICE_ROLE_KEY
       seller name weight price quantity) = inr resp ->
  ~ (200 <= httpx.status_code resp <= 299) ->
  exists s',
    create_product SUPABASE_URL SUPABASE_SERVICE_ROLE_KEY
      name weight price quantity env s
    = (inr ("Error creating product:" ++ " " ++ httpx.status_error resp), s')
    /\ _last_product_id (self s') = _last_product_id (self s)
    /\ _last_product_name (self s') = _last_product_name (self s).
Proof.
  intros Hseller Hanswer Hstatus.
  destruct (seller_in_room_run env seller s Hseller) as [Hrun Htruthy].
  unfold create_product, bind at 1.
  rewrite Hrun, Htruthy. cbn [negb str_of].
  unfold try_except, bind at 1.
  rewrite supabase_insert_product_run, Hanswer.
  destruct (httpx.is_success resp) eqn:Hsuccess.
  - apply is_success_iff in Hsuccess. contradiction.
  - eexists. split; [reflexivity |]. split; reflexivity.
Qed.

(** C1, as the code has it: for valid inputs, when a seller is in the room
and the endpoint answers 2xx with the created row (an object, alone or
first of a list) that carries an id, [create_product] returns the summary
with the exact name, the price to two decimals, the weight, the quantity
and [str] of that id, and the assistant remembers that id and the given
name.  The id is printed as the endpoint gave it: it is not blank when
it is a text that is not blank or an integer, and the code does not ask
for more. *)
Theorem create_product_success name weight price quantity env s seller resp
    data fields product_id :
  valid_input weight price quantity ->
  seller_in_room env seller ->
  endpoint env
    (insert_request SUPABASE_URL SUPABASE_SERVICE_ROLE_KEY
       seller name weight price quantity) = inr resp ->
  200 <= httpx.status_code resp <= 299 ->
  httpx.body resp = inr data ->
  normalized data = Some (PyDict fields) ->
  dict_lookup "id" fields = Some product_id ->
  create_product SUPABASE_URL SUPABASE_SERVICE_ROLE_KEY
    name weight price quantity env s
  = (inr ("Product created successfully. Name: " ++ name
          ++ ", Price: $" ++ format_2f price
          ++ ", Weight: " ++ float_str weight
          ++ "oz, Quantity: " ++ int_str quantity
          ++ ". Product ID: " ++ py_str product_id),
     {| self := {| _last_product_id := product_id;
                   _last_product_name := Some name |};
        posted :=
          posted s
          ++ [insert_request SUPABASE_URL SUPABASE_SERVICE_ROLE_KEY
                seller name weight price quantity];
        rpcs := rpcs s |})
  /\ (is_identifier product_id = true -> py_str product_id <> "").
Proof.
  intros _ Hseller Hanswer Hstatus Hbody Hobject Hid.
  split; [| apply identifier_not_blank].
  destruct (seller_in_room_run env seller s Hseller) as [Hrun Htruthy].
  apply is_success_iff in Hstatus.
  unfold create_product, bind at 1.
  rewrite Hrun, Htruthy. cbn [negb str_of].
  unfold try_except, bind at 1.
  rewrite supabase_insert_product_run, Hanswer, Hstatus, Hbody.
  rewrite Hobject.
  unfold bind, value_get, ret, set_last_product_id, set_last_product_name.
  rewrite Hid. reflexivity.
Qed.

(** C4, as the code has it: a 2xx answer whose body is an empty list makes
the client raise [IndexError], which [create_product] reports as an
error, the assistant unchanged; a 2xx answer whose normalized object has
no "id" is returned by the client as it is, and [create_product] reports
success under the identifier "unknown" and remembers it. *)
Theorem malformed_response name weight price quantity env s seller resp :
  seller_in_room env seller ->
  endpoint env
    (insert_request SUPABASE_URL SUPABASE_SERVICE_ROLE_KEY
       seller name weight price quantity) = inr resp ->
  200 <= httpx.status_code resp <= 299 ->
  let s' :=
    {| self := self s;
       posted :=
         posted s
         ++ [insert_request SUPABASE_URL SUPABASE_SERVICE_ROLE_KEY
               seller name weight price quantity];
       rpcs := rpcs s |} in
  (httpx.body resp = inr (PyList []) ->
     supabase_insert_product SUPABASE_URL SUPABASE_SERVICE_ROLE_KEY
       seller name weight price quantity env s
     = (inl (Exn "IndexError" "list index out of range"), s')
     /\ create_product SUPABASE_URL SUPABASE_SERVICE_ROLE_KEY
          name weight price quantity env s
        = (inr "Error creating product: list index out of range", s'))
  /\ (forall data fields,
        httpx.body resp = inr data ->
        normalized data = Some (PyDict fields) ->
        dict_lookup "id" fields = None ->
        supabase_insert_product SUPABASE_URL SUPABASE_SERVICE_ROLE_KEY
          seller name weight price quantity env s
        = (inr (PyDict fields), s')
        /\ create_product SUPABASE_URL SUPABASE_SERVICE_ROLE_KEY
             name weight price quantity env s
           = (inr ("Product created successfully. Name: " ++ name
                   ++ ", Price: $" ++ format_2f price
                   ++ ", Weight: " ++ float_str weight
                   ++ "oz, Quantity: " ++ int_str quantity
                   ++ ". Product ID: unknown"),
              {| self := {| _last_product_id := PyStr "unknown";
                            _last_product_name := Some name |};
                 posted := posted s';
                 rpcs := rpcs s' |})).
Proof.
  intros Hseller Hanswer Hstatus s'.
  destruct (seller_in_room_run env seller s Hseller) as [Hrun Htruthy].
  apply is_success_iff in Hstatus.
  split.
  - intros Hbody. split.
    + rewrite supabase_insert_product_run, Hanswer, Hstatus, Hbody. reflexivity.
    + unfold create_product, bind at 1.
      rewrite Hrun, Htruthy. cbn [negb str_of].
      unfold try_except, bind at 1.
      rewrite supabase_insert_product_run, Hanswer, Hstatus, Hbody. reflexivity.
  - intros data fields Hbody Hobject Hid.
    split.
    + rewrite supabase_insert_product_run, Hanswer, Hstatus, Hbody, Hobject.
      reflexivity.
    + unfold create_product, bind at 1.
      rewrite Hrun, Htruthy. cbn [negb str_of].
      unfold try_except, bind at 1.
      rewrite supabase_insert_product_run, Hanswer, Hstatus, Hbody, Hobject.
      unfold bind, value_get, ret, set_last_product_id, set_last_product_name.
      rewrite Hid. reflexivity.
Qed.

(** C5, as the code has it: whatever the answer, the client posts one
request, whose JSON body holds the caller's name, price, weight, quantity
and seller with the fixed weight unit "oz", a blank image, four empty
lists, and as description the name followed by " - added via voice";
with a seller in the room this is the one request of [create_product]. *)
Theorem insert_payload seller_id name weight cost quantity env s :
  let sent :=
    PyDict
      [ ("name", PyStr name);
        ("price", PyFloat cost);
        ("weight", PyFloat weight);
        ("weight_unit", PyStr "oz");
        ("quantity_in_stock", PyInt quantity);
        ("seller_id", PyStr seller_id);
        ("image", PyStr "");
        ("description", PyStr (name ++ " - added via voice"));
        ("images", PyList []);
        ("colors", PyList []);
        ("sizes", PyList []);
        ("variants", PyList []) ] in
  (exists req,
     posted (snd (supabase_insert_product SUPABASE_URL SUPABASE_SERVICE_ROLE_KEY
                    seller_id name weight cost quantity env s))
     = (posted s ++ [req])%list
     /\ httpx.json req = sent)
  /\ (seller_in_room env seller_id ->
      exists req,
        posted (snd (create_product SUPABASE_URL SUPABASE_SERVICE_ROLE_KEY
                       name weight cost quantity env s))
        = (posted s ++ [req])%list
        /\ httpx.json req = sent).
Proof.
  intros sent. split.
  - rewrite supabase_insert_product_run.
    eexists. split; reflexivity.
  - intros Hseller.
    destruct (seller_in_room_run env seller_id s Hseller) as [Hrun Htruthy].
    unfold create_product, bind at 1.
    rewrite Hrun, Htruthy. cbn [negb str_of].
    unfold try_except, bind at 1.
    rewrite supabase_insert_product_run.
    exists (insert_request SUPABASE_URL SUPABASE_SERVICE_ROLE_KEY
              seller_id name weight cost quantity).
    split; [| reflexivity].
    destruct (endpoint env _) as [e | resp]; [reflexivity |].
    destruct (httpx.is_success resp); [| reflexivity].
    destruct (httpx.body resp) as [e | data]; [reflexivity |].
    destruct (normalized data) as [object |]; [| reflexivity].
    unfold bind, value_get, ret, raise, set_last_product_id,
      set_last_product_name.
    destruct object; reflexivity.
Qed.

(** ** The carousel *)

(** C6, as the code has it: with a broadcaster in the room and a peer that
answers, [add_product_to_show] returns "Product added to the live show
carousel. " followed by the answer, after one call whose payload is
[json.dumps] of an object with exactly the keys productId, the given id,
and name, the remembered name when there is one and it is not blank, and
"Product" otherwise. *)
Theorem add_product_to_show_success product_id env s ctx broadcaster response :
  job_context env = inr ctx ->
  first_non_agent (room ctx) = Some broadcaster ->
  broadcaster <> "" ->
  let name :=
    match _last_product_name (self s) with
    | Some remembered => if String.eqb remembered "" then "Product" else remembered
    | None => "Product"
    end in
  let sent :=
    {| rtc.destination_identity := broadcaster;
       rtc.method := "addProductToShow";
       rtc.payload :=
         json_dumps
           (PyDict [("productId", PyStr product_id); ("name", PyStr name)]);
       rtc.response_timeout := float_of_Z 10 |} in
  peer env sent = inr response ->
  add_product_to_show product_id env s
  = (inr ("Product added to the live show carousel." ++ " " ++ response),
     {| self := self s; posted := posted s; rpcs := rpcs s ++ [sent] |}).
Proof.
  intros Hctx Hfirst Hblank name sent Hanswer.
  unfold add_product_to_show, try_except, bind, get_job_context.
  rewrite Hctx, broadcaster_scan_first, Hfirst.
  unfold truthy.
  destruct (String.eqb_spec broadcaster ""); [contradiction |].
  cbn [negb str_of get_self perform_rpc fst snd].
  fold name. unfold or_default. fold name. fold sent.
  rewrite Hanswer. reflexivity.
Qed.

(** C8: an invocation that reaches the call issues exactly one, to the
broadcaster, under the method addProductToShow and with a response
timeout of ten seconds; when that call raises, time-out included, the
tool returns "Error adding product to show: " followed by the text of
the exception, and no second call is made. *)
Theorem add_product_to_show_single_call product_id env s ctx broadcaster :
  job_context env = inr ctx ->
  first_non_agent (room ctx) = Some broadcaster ->
  broadcaster <> "" ->
  exists sent,
    rpcs (snd (add_product_to_show product_id env s)) = (rpcs s ++ [sent])%list
    /\ rtc.destination_identity sent = broadcaster
    /\ rtc.method sent = "addProductToShow"
    /\ rtc.response_timeout sent = S754_finite false 5629499534213120 (-49)
    /\ 5629499534213120 = 10 * 2 ^ 49
    /\ (forall e,
          peer env sent = inl e ->
          fst (add_product_to_show product_id env s)
          = inr ("Error adding product to show:" ++ " " ++ exn_str e)).
Proof.
  intros Hctx Hfirst Hblank.
  unfold add_product_to_show, try_except, bind, get_job_context.
  rewrite Hctx, broadcaster_scan_first, Hfirst.
  unfold truthy.
  destruct (String.eqb_spec broadcaster ""); [contradiction |].
  cbn [negb str_of get_self perform_rpc fst snd].
  eexists. split.
  - destruct (peer env _); reflexivity.
  - repeat split. intros e He. cbn [rtc.payload] in He |- *.
    rewrite He. reflexivity.
Qed.

(** C9: [add_product_to_show] leaves the two attributes of the assistant
as they were, whatever the room, the peer and the outcome; a tool call
after which they differ is a call of [create_product]. *)
Theorem add_product_to_show_frame product_id env s :
  self (snd (add_product_to_show product_id env s)) = self s
  /\ forall t e s0,
       self (snd (call_tool SUPABASE_URL SUPABASE_SERVICE_ROLE_KEY t e s0))
       <> self s0 ->
       exists name weight price quantity,
         t = CreateProduct name weight price quantity.
Proof.
  assert (Hframe : forall p e s0,
            self (snd (add_product_to_show p e s0)) = self s0).
  { intros p e s0.
    unfold add_product_to_show, try_except, bind, get_job_context.
    destruct (job_context e) as [err | ctx]; [reflexivity |].
    destruct (negb _); [reflexivity |].
    cbn [get_self perform_rpc fst snd].
    destruct (peer e _); reflexivity. }
  split; [apply Hframe |].
  intros [name weight price quantity | p] e s0 Hchanged.
  - eauto.
  - exfalso. apply Hchanged. apply Hframe.
Qed.

End Properties.

(** * The properties on the worked session *)

Module Replay.

Import Scenario.

Lemma seller_alice (answer : httpx.Response)
    (peer : rtc.RpcInvocation -> exn + string) :
  seller_in_room (on_air studio answer peer) "alice".
Proof.
  exists studio. repeat split. discriminate.
Defined.

Lemma valid_mug : valid_input twelve nine_fifty 3.
Proof. repeat split. discriminate. Defined.

Lemma backstage_only_agents : only_agents (room backstage).
Proof. repeat constructor. Defined.

(** C1 on the studio: the summary for a mug. *)
Lemma create_product_success_witness :
  create_product (runtime := CPython.runtime) url key "Mug" twelve nine_fifty 3
    (on_air studio created answering) new_session
  = (inr "Product created successfully. Name: Mug, Price: $9.50, Weight: 12.0oz, Quantity: 3. Product ID: b1946ac9",
     {| self := {| _last_product_id := PyStr "b1946ac9";
                   _last_product_name := Some "Mug" |};
        posted := [insert_request url key "alice" "Mug" twelve nine_fifty 3];
        rpcs := [] |})
  /\ "b1946ac9" <> "".
Proof.
  destruct (create_product_success (runtime := CPython.runtime) url key "Mug"
              twelve nine_fifty 3 (on_air studio created answering) new_session
              "alice" created
              (PyList [PyDict [("id", PyStr "b1946ac9"); ("weight_unit", PyStr "oz")]])
              [("id", PyStr "b1946ac9"); ("weight_unit", PyStr "oz")]
              (PyStr "b1946ac9"))
    as [Hrun Hprinted].
  - exact valid_mug.
  - apply seller_alice.
  - reflexivity.
  - simpl. lia.
  - reflexivity.
  - reflexivity.
  - reflexivity.
  - split; [exact Hrun | apply Hprinted; reflexivity].
Defined.

(** The specification's C1 on a row whose id is blank: the inputs are
valid, the answer is 201 with the row, the client returns it, and the
summary ends after "Product ID: ", the product id in it being blank. *)
Lemma blank_id_is_reported :
  valid_input twelve nine_fifty 3
  /\ supabase_insert_product url key "alice" "Mug" twelve nine_fifty 3
       (on_air studio Rehearsal.blank_id answering) new_session
     = (inr (PyDict [("id", PyStr ""); ("weight_unit", PyStr "oz")]),
        {| self := new_assistant;
           posted := [insert_request url key "alice" "Mug" twelve nine_fifty 3];
           rpcs := [] |})
  /\ create_product (runtime := CPython.runtime) url key "Mug" twelve
       nine_fifty 3 (on_air studio Rehearsal.blank_id answering) new_session
     = (inr ("Product created successfully. Name: Mug, Price: $9.50, Weight: 12.0oz, Quantity: 3. Product ID: "
             ++ ""),
        {| self := {| _last_product_id := PyStr "";
                      _last_product_name := Some "Mug" |};
           posted := [insert_request url key "alice" "Mug" twelve nine_fifty 3];
           rpcs := [] |})
  /\ py_str (runtime := CPython.runtime) (PyStr "") = "".
Proof.
  split; [exact valid_mug |]. repeat split.
Qed.

(** C2 on the studio: the endpoint refuses the key. *)
Lemma create_product_status_error_witness :
  exists s',
    create_product (runtime := CPython.runtime) url key "Mug" twelve nine_fifty 3
      (on_air studio refused answering) new_session
    = (inr "Error creating product: Client error '401 Unauthorized'", s')
    /\ _last_product_id (self s') = PyNone
    /\ _last_product_name (self s') = None.
Proof.
  apply (create_product_status_error (runtime := CPython.runtime) url key "Mug"
           twelve nine_fifty 3 (on_air studio refused answering) new_session
           "alice" refused).
  - apply seller_alice.
  - reflexivity.
  - simpl. lia.
Defined.

(** C3 backstage: no seller, nothing posted. *)
Lemma create_product_without_seller_witness :
  create_product (runtime := CPython.runtime) url key "Mug" twelve nine_fifty 3
    (on_air backstage created answering) new_session
  = (inr "Error: Could not determine seller identity.", new_session).
Proof.
  apply (create_product_without_seller (runtime := CPython.runtime) url key
           "Mug" twelve nine_fifty 3 (on_air backstage created answering)
           new_session backstage).
  - reflexivity.
  - exact backstage_only_agents.
Defined.

(** C7 backstage: no broadcaster, no call. *)
Lemma add_product_to_show_without_broadcaster_witness :
  add_product_to_show (runtime := CPython.runtime) "b1946ac9"
    (on_air backstage created answering) new_session
  = (inr "Error: No broadcaster found in the room.", new_session).
Proof.
  apply (add_product_to_show_without_broadcaster (runtime := CPython.runtime)
           "b1946ac9" (on_air backstage created answering) new_session
           backstage).
  - reflexivity.
  - exact backstage_only_agents.
Defined.

(** C4 on the studio: an empty list is an error of the client, a row
without an id is a success under "unknown". *)
Lemma malformed_response_witness :
  (supabase_insert_product url key "alice" "Mug" twelve nine_fifty 3
     (on_air studio created_nothing answering) new_session
   = (inl (Exn "IndexError" "list index out of range"),
      {| self := new_assistant;
         posted := [insert_request url key "alice" "Mug" twelve nine_fifty 3];
         rpcs := [] |})
   /\ fst (create_product (runtime := CPython.runtime) url key "Mug" twelve
             nine_fifty 3 (on_air studio created_nothing answering) new_session)
      = inr "Error creating product: list index out of range")
  /\ (supabase_insert_product url key "alice" "Mug" twelve nine_fifty 3
        (on_air studio created_without_id answering) new_session
      = (inr (PyDict [("weight_unit", PyStr "oz")]),
         {| self := new_assistant;
            posted := [insert_request url key "alice" "Mug" twelve nine_fifty 3];
            rpcs := [] |})
      /\ create_product (runtime := CPython.runtime) url key "Mug" twelve
           nine_fifty 3 (on_air studio created_without_id answering) new_session
         = (inr "Product created successfully. Name: Mug, Price: $9.50, Weight: 12.0oz, Quantity: 3. Product ID: unknown",
            {| self := {| _last_product_id := PyStr "unknown";
                          _last_product_name := Some "Mug" |};
               posted := [insert_request url key "alice" "Mug" twelve nine_fifty 3];
               rpcs := [] |})).
Proof.
  split.
  - destruct (malformed_response (runtime := CPython.runtime) url key "Mug"
                twelve nine_fifty 3 (on_air studio created_nothing answering)
                new_session "alice" created_nothing)
      as [Hempty _].
    + apply seller_alice.
    + reflexivity.
    + simpl. lia.
    + destruct (Hempty eq_refl) as [Hclient Htool].
      split; [exact Hclient | rewrite Htool; reflexivity].
  - destruct (malformed_response (runtime := CPython.runtime) url key "Mug"
                twelve nine_fifty 3 (on_air studio created_without_id answering)
                new_session "alice" created_without_id)
      as [_ Hmissing].
    + apply seller_alice.
    + reflexivity.
    + simpl. lia.
    + apply (Hmissing (PyList [PyDict [("weight_unit", PyStr "oz")]])
               [("weight_unit", PyStr "oz")]); reflexivity.
Defined.

(** The specification's C4 on the same answer: the normalized object has
no id, the client does not fail, and the tool reports a success. *)
Lemma missing_id_is_no_failure :
  httpx.body created_without_id
  = inr (PyList [PyDict [("weight_unit", PyStr "oz")]])
  /\ dict_lookup "id" [("weight_unit", PyStr "oz")] = None
  /\ ~ fails (supabase_insert_product url key "alice" "Mug" twelve nine_fifty 3
                (on_air studio created_without_id answering) new_session)
  /\ begins_with "Product created successfully."
       (match fst (create_product (runtime := CPython.runtime) url key "Mug"
                     twelve nine_fifty 3
                     (on_air studio created_without_id answering) new_session)
        with
        | inr reply => reply
        | inl _ => ""
        end).
Proof.
  repeat split.
  - intros [e He]. vm_compute in He. discriminate He.
  - vm_compute. eexists. reflexivity.
Qed.

(** C5 on the studio: what is posted for a mug. *)
Lemma insert_payload_witness :
  exists req,
    posted (snd (create_product (runtime := CPython.runtime) url key "Mug"
                   twelve nine_fifty 3 (on_air studio created answering)
                   new_session))
    = [req]
    /\ httpx.json req
       = PyDict
           [ ("name", PyStr "Mug");
             ("price", PyFloat nine_fifty);
             ("weight", PyFloat twelve);
             ("weight_unit", PyStr "oz");
             ("quantity_in_stock", PyInt 3);
             ("seller_id", PyStr "alice");
             ("image", PyStr "");
             ("description", PyStr "Mug - added via voice");
             ("images", PyList []);
             ("colors", PyList []);
             ("sizes", PyList []);
             ("variants", PyList []) ].
Proof.
  apply (proj2 (insert_payload (runtime := CPython.runtime) url key "alice"
                  "Mug" twelve nine_fifty 3 (on_air studio created answering)
                  new_session)).
  apply seller_alice.
Defined.

(** The specification's C5 on the same call: the description posted is not
the name with a blank suffix. *)
Lemma description_has_a_suffix :
  map (fun req => value_field "description" (httpx.json req))
    (posted (snd (create_product (runtime := CPython.runtime) url key "Mug"
                    twelve nine_fifty 3 (on_air studio created answering)
                    new_session)))
  = [Some (PyStr "Mug - added via voice")]
  /\ "Mug - added via voice" <> specified_description "Mug".
Proof.
  split; [reflexivity | discriminate].
Qed.

(** C6 on the studio, after a mug was created: the call and the reply. *)
Lemma add_product_to_show_success_witness :
  add_product_to_show (runtime := CPython.runtime) "b1946ac9"
    (on_air studio created answering) after_mug
  = (inr "Product added to the live show carousel. added",
     {| self := self after_mug;
        posted := posted after_mug;
        rpcs :=
          [ {| rtc.destination_identity := "alice";
               rtc.method := "addProductToShow";
               rtc.payload :=
                 CPython.json_dumps
                   (PyDict [("productId", PyStr "b1946ac9"); ("name", PyStr "Mug")]);
               rtc.response_timeout := float_of_Z 10 |} ] |}).
Proof.
  apply (add_product_to_show_success (runtime := CPython.runtime) "b1946ac9"
           (on_air studio created answering) after_mug studio "alice" "added").
  - reflexivity.
  - reflexivity.
  - discriminate.
  - reflexivity.
Defined.

(** The specification's C6 on the conversation [blank_name]: both calls
succeed, the last created product's name is blank, and the name sent is
"Product". *)
Lemma blank_name_is_replaced :
  fst blank_name
  = [ "Product created successfully. Name: , Price: $9.50, Weight: 12.0oz, Quantity: 3. Product ID: b1946ac9";
      "Product added to the live show carousel. added" ]
  /\ _last_product_name (self (snd blank_name)) = Some ""
  /\ specified_carousel_name (self (snd blank_name)) = ""
  /\ map rtc.payload (rpcs (snd blank_name))
     = [ CPython.json_dumps
           (PyDict [("productId", PyStr "b1946ac9"); ("name", PyStr "Product")]) ]
  /\ CPython.json_dumps
       (PyDict [("productId", PyStr "b1946ac9"); ("name", PyStr "Product")])
     <> CPython.json_dumps
          (PyDict [ ("productId", PyStr "b1946ac9");
                    ("name",
                     PyStr (specified_carousel_name (self (snd blank_name)))) ]).
Proof.
  repeat split. vm_compute. discriminate.
Qed.

(** C8 on the studio with a peer that does not answer in time. *)
Lemma add_product_to_show_single_call_witness :
  exists sent,
    rpcs (snd (add_product_to_show (runtime := CPython.runtime) "b1946ac9"
                 (on_air studio created silent) new_session))
    = [sent]
    /\ rtc.destination_identity sent = "alice"
    /\ rtc.method sent = "addProductToShow"
    /\ rtc.response_timeout sent = S754_finite false 5629499534213120 (-49)
    /\ fst (add_product_to_show (runtime := CPython.runtime) "b1946ac9"
              (on_air studio created silent) new_session)
       = inr "Error adding product to show: Response timeout".
Proof.
  destruct (add_product_to_show_single_call (runtime := CPython.runtime)
              "b1946ac9" (on_air studio created silent) new_session studio
              "alice" eq_refl eq_refl)
    as (sent & Hsent & Hto & Hmethod & Htimeout & _ & Herror).
  - discriminate.
  - exists sent.
    split; [exact Hsent |]. split; [exact Hto |]. split; [exact Hmethod |].
    split; [exact Htimeout |].
    apply (Herror (Exn "RpcError" "Response timeout")). reflexivity.
Defined.

(** C9 on the studio: the call to the carousel leaves the assistant as it
is, and the call that changed it created a product. *)
Lemma add_product_to_show_frame_witness :
  self (snd (add_product_to_show (runtime := CPython.runtime) "b1946ac9"
               (on_air studio created silent) after_blank_name))
  = self after_blank_name
  /\ exists name weight price quantity,
       CreateProduct "Mug" twelve nine_fifty 3
       = CreateProduct name weight price quantity.
Proof.
  destruct (add_product_to_show_frame (runtime := CPython.runtime) url key
              "b1946ac9" (on_air studio created silent) after_blank_name)
    as [Hframe Honly].
  split; [exact Hframe |].
  apply (Honly (CreateProduct "Mug" twelve nine_fifty 3)
           (on_air studio created answering) new_session).
  vm_compute. discriminate.
Defined.

End Replay.

(** * Further properties of the tools *)

(** Whether a seller is in the room is decided by the job and the scan. *)
Lemma seller_in_room_dec (env : Env) :
  (exists seller, seller_in_room env seller)
  \/ (forall seller, ~ seller_in_room env seller)
     /\ truthy match job_context env with
               | inr ctx => first_non_agent (room ctx)
               | inl _ => None
               end = false.
Proof.
  unfold seller_in_room.
  destruct (job_context env) as [e | ctx] eqn:Hjob.
  - right. split; [| reflexivity].
    intros seller (ctx & Hctx & _). discriminate Hctx.
  - destruct (first_non_agent (room ctx)) as [seller |] eqn:Hfirst.
    + destruct (String.eqb_spec seller "") as [Hblank | Hblank].
      * right. split.
        -- intros other (ctx' & Hctx & Hother & Hnot).
           injection Hctx as <-. congruence.
        -- simpl. subst seller. reflexivity.
      * left. exists seller, ctx. auto.
    + right. split; [| reflexivity].
      intros other (ctx' & Hctx & Hother & _).
      injection Hctx as <-. congruence.
Qed.

Section Tools.

Context {runtime : Runtime}.
Variable SUPABASE_URL : string.
Variable SUPABASE_SERVICE_ROLE_KEY : string.

(** [create_product] with a seller in the room, by what the client gives. *)
Lemma create_product_run name weight price quantity env s seller :
  seller_in_room env seller ->
  create_product SUPABASE_URL SUPABASE_SERVICE_ROLE_KEY
    name weight price quantity env s
  = match supabase_insert_product SUPABASE_URL SUPABASE_SERVICE_ROLE_KEY
            seller name weight price quantity env s with
    | (inl e, s1) => (inr ("Error creating product: " ++ exn_str e), s1)
    | (inr (PyDict fields), s1) =>
        let product_id :=
          match dict_lookup "id" fields with
          | Some v => v
          | None => PyStr "unknown"
          end in
        (inr (summary name weight price quantity product_id),
         remember s1 product_id name)
    | (inr product, s1) =>
        (inr ("Error creating product: '" ++ type_name product
              ++ "' object has no attribute 'get'"), s1)
    end.
Proof.
  intros Hseller.
  destruct (seller_in_room_run env seller s Hseller) as [Hrun Htruthy].
  unfold create_product, bind at 1.
  rewrite Hrun, Htruthy. cbn [negb str_of].
  unfold try_except, bind at 1.
  destruct (supabase_insert_product _ _ seller name weight price quantity env s)
    as [[e | product] s1]; [reflexivity |].
  destruct product; reflexivity.
Qed.

(** Every way [create_product] can go. *)
Lemma create_product_cases name weight price quantity env s :
  let run :=
    create_product SUPABASE_URL SUPABASE_SERVICE_ROLE_KEY
      name weight price quantity env s in
  ((forall seller, ~ seller_in_room env seller)
   /\ run = (inr "Error: Could not determine seller identity.", s))
  \/ exists seller,
       seller_in_room env seller
       /\ let s1 :=
            with_posted s
              (insert_request SUPABASE_URL SUPABASE_SERVICE_ROLE_KEY
                 seller name weight price quantity) in
          ((exists e,
              supabase_insert_product SUPABASE_URL SUPABASE_SERVICE_ROLE_KEY
                seller name weight price quantity env s = (inl e, s1)
              /\ run = (inr ("Error creating product: " ++ exn_str e), s1))
           \/ (exists product,
                 supabase_insert_product SUPABASE_URL SUPABASE_SERVICE_ROLE_KEY
                   seller name weight price quantity env s = (inr product, s1)
                 /\ ((forall fields, product <> PyDict fields)
                     /\ run
                        = (inr ("Error creating product: '"
                                ++ type_name product
                                ++ "' object has no attribute 'get'"), s1)
                     \/ exists fields,
                          product = PyDict fields
                          /\ let product_id :=
                               match dict_lookup "id" fields with
                               | Some v => v
                               | None => PyStr "unknown"
                               end in
                             run
                             = (inr (summary name weight price quantity product_id),
                                remember s1 product_id name)))).
Proof.
  intros run.
  destruct (seller_in_room_dec env) as [[seller Hseller] | [Hnone Hfalsy]].
  - right. exists seller. split; [exact Hseller |]. intros s1.
    assert (Hrun : run = _) by exact (create_product_run name weight price
                                        quantity env s seller Hseller).
    assert (Hlog :
      snd (supabase_insert_product SUPABASE_URL SUPABASE_SERVICE_ROLE_KEY
             seller name weight price quantity env s) = s1)
      by (rewrite supabase_insert_product_run; reflexivity).
    destruct (supabase_insert_product _ _ seller name weight price quantity env s)
      as [[e | product] s'].
    + simpl in Hlog. subst s'. left. exists e. split; [reflexivity | exact Hrun].
    + simpl in Hlog. subst s'. right. exists product. split; [reflexivity |].
      destruct product as [| b | n | x | t | items | fields];
        try (left; split; [intros fields; discriminate | exact Hrun]).
      right. exists fields. split; [reflexivity | exact Hrun].
  - left. split; [exact Hnone |].
    unfold run, create_product, bind.
    rewrite get_seller_id_from_room_run, Hfalsy. reflexivity.
Qed.

(** Every way [add_product_to_show] can go. *)
Lemma add_product_to_show_cases product_id env s :
  let run := add_product_to_show product_id env s in
  (exists e,
     job_context env = inl e
     /\ run = (inr ("Error adding product to show: " ++ exn_str e), s))
  \/ (exists ctx,
        job_context env = inr ctx
        /\ truthy (first_non_agent (room ctx)) = false
        /\ run = (inr "Error: No broadcaster found in the room.", s))
  \/ (exists ctx broadcaster,
        job_context env = inr ctx
        /\ first_non_agent (room ctx) = Some broadcaster
        /\ broadcaster <> ""
        /\ let sent := carousel_call broadcaster product_id (self s) in
           ((exists response,
               peer env sent = inr response
               /\ run
                  = (inr ("Product added to the live show carousel. " ++ response),
                     with_rpc s sent))
            \/ (exists e,
                  peer env sent = inl e
                  /\ run
                     = (inr ("Error adding product to show: " ++ exn_str e),
                        with_rpc s sent)))).
Proof.
  cbv zeta.
  unfold add_product_to_show, try_except, bind, get_job_context.
  destruct (job_context env) as [e | ctx] eqn:Hjob.
  - left. exists e. split; reflexivity.
  - right. rewrite broadcaster_scan_first.
    destruct (truthy (first_non_agent (room ctx))) eqn:Htruthy.
    + right.
      destruct (first_non_agent (room ctx)) as [broadcaster |] eqn:Hfirst;
        [| discriminate Htruthy].
      exists ctx, broadcaster. split; [reflexivity |]. split; [exact Hfirst |].
      split.
      { intros ->. discriminate Htruthy. }
      cbn [negb str_of get_self perform_rpc fst snd].
      fold (carousel_call broadcaster product_id (self s)).
      destruct (peer env (carousel_call broadcaster product_id (self s)))
        as [e | response] eqn:Hpeer.
      * right. exists e. split; reflexivity.
      * left. exists response. split; reflexivity.
    + left. exists ctx. split; [reflexivity |]. split; [exact Htruthy |].
      reflexivity.
Qed.

(** ** What a tool call may do *)

(** X1: no [Exception] leaves a tool: whichever subclass of [Exception]
the job context, the endpoint, the decoding of the answer or the peer
raise, each of the two tools ends in a reply, so a conversation in which
nothing else is raised has one reply for each call.  What is not an
[Exception], as the cancellation of the task at an [await], is not caught
by the tools and is not in the model. *)
Theorem tools_always_reply :
  (forall t env s,
     exists reply,
       fst (call_tool SUPABASE_URL SUPABASE_SERVICE_ROLE_KEY t env s) = inr reply)
  /\ (forall calls s,
        List.length
          (fst (run_calls SUPABASE_URL SUPABASE_SERVICE_ROLE_KEY calls s))
        = List.length calls).
Proof.
  split.
  - intros t env s. apply call_tool_returns.
  - induction calls as [| [env t] rest IH]; intros s; simpl; [reflexivity |].
    destruct (call_tool_returns SUPABASE_URL SUPABASE_SERVICE_ROLE_KEY t env s)
      as [reply Hreply].
    destruct (call_tool _ _ t env s) as [[e | reply'] s'];
      simpl in Hreply; [discriminate Hreply |].
    specialize (IH s').
    destruct (run_calls _ _ rest s') as [replies s''].
    simpl in *. rewrite IH. reflexivity.
Qed.

(** X2: [create_product] is all or nothing on the assistant: either the
reply begins with "Error" and both attributes are as they were, or the
reply is the summary of some product id and the assistant remembers that
id and the given name. *)
Theorem create_product_all_or_nothing name weight price quantity env s :
  let run :=
    create_product SUPABASE_URL SUPABASE_SERVICE_ROLE_KEY
      name weight price quantity env s in
  (exists reply,
     fst run = inr reply /\ begins_with "Error" reply /\ self (snd run) = self s)
  \/ (exists product_id,
        fst run = inr (summary name weight price quantity product_id)
        /\ self (snd run)
           = {| _last_product_id := product_id;
                _last_product_name := Some name |}).
Proof.
  intros run.
  destruct (create_product_cases name weight price quantity env s)
    as [[_ Hrun] | (seller & _ & [(e & _ & Hrun) | (product & _ & Hcase)])].
  - left. fold run in Hrun. rewrite Hrun. eexists. split; [reflexivity |].
    split; [| reflexivity]. eexists. reflexivity.
  - left. fold run in Hrun. rewrite Hrun. eexists. split; [reflexivity |].
    split; [| reflexivity]. eexists. reflexivity.
  - destruct Hcase as [[_ Hrun] | (fields & _ & Hrun)]; fold run in Hrun.
    + left. rewrite Hrun. eexists. split; [reflexivity |].
      split; [| reflexivity]. eexists. reflexivity.
    + right. rewrite Hrun. eexists. split; reflexivity.
Qed.


(** X4: [add_product_to_show] never posts to the endpoint, and it issues
no call or exactly one, to the first participant of the room that is not
an agent, with the name the assistant remembers at that moment. *)
Theorem add_product_to_show_traffic product_id env s :
  let run := add_product_to_show product_id env s in
  posted (snd run) = posted s
  /\ (rpcs (snd run) = rpcs s
      \/ (exists ctx broadcaster,
            job_context env = inr ctx
            /\ first_non_agent (room ctx) = Some broadcaster
            /\ broadcaster <> ""
            /\ rpcs (snd run)
               = (rpcs s ++ [carousel_call broadcaster product_id (self s)])%list)).
Proof.
  intros run.
  destruct (add_product_to_show_cases product_id env s)
    as [(e & _ & Hrun) | [(ctx & _ & _ & Hrun) | (ctx & b & Hctx & Hb & Hblank & Hsent)]].
  - fold run in Hrun. rewrite Hrun. split; [reflexivity |]. left. reflexivity.
  - fold run in Hrun. rewrite Hrun. split; [reflexivity |]. left. reflexivity.
  - cbv zeta in Hsent.
    destruct Hsent as [(response & _ & Hrun) | (e & _ & Hrun)];
      fold run in Hrun; rewrite Hrun; (split; [reflexivity |]); right;
      exists ctx, b; repeat (split; [assumption |]); reflexivity.
Qed.

(** ** Who is in the room *)

(** X5: [create_product] answers "Error: Could not determine seller
identity." exactly when no seller is in the room: outside a job, in a
room of agents, or when the first participant that is not an agent has
a blank identity. *)
Theorem seller_error_iff name weight price quantity env s :
  fst (create_product SUPABASE_URL SUPABASE_SERVICE_ROLE_KEY
         name weight price quantity env s)
  = inr "Error: Could not determine seller identity."
  <-> (forall seller, ~ seller_in_room env seller).
Proof.
  destruct (create_product_cases name weight price quantity env s)
    as [[Hnone Hrun] | (seller & Hseller & [(e & _ & Hrun) | (product & _ & Hcase)])].
  - rewrite Hrun. split; [intros _; exact Hnone | reflexivity].
  - rewrite Hrun. split.
    + simpl. intros Hsame. discriminate Hsame.
    + intros Hnone. destruct (Hnone seller Hseller).
  - destruct Hcase as [[_ Hrun] | (fields & _ & Hrun)]; rewrite Hrun; split;
      try (intros Hnone; destruct (Hnone seller Hseller));
      simpl; intros Hsame; discriminate Hsame.
Qed.

(** X6: outside a job, where [get_job_context] raises, [create_product]
swallows the exception and reports a missing seller, while
[add_product_to_show] reports the text of the exception; neither sends
anything. *)
Theorem outside_a_job name weight price quantity product_id env s e :
  job_context env = inl e ->
  create_product SUPABASE_URL SUPABASE_SERVICE_ROLE_KEY
    name weight price quantity env s
  = (inr "Error: Could not determine seller identity.", s)
  /\ add_product_to_show product_id env s
     = (inr ("Error adding product to show: " ++ exn_str e), s).
Proof.
  intros Hjob. split.
  - unfold create_product, bind.
    rewrite get_seller_id_from_room_run, Hjob. reflexivity.
  - unfold add_product_to_show, try_except, bind, get_job_context.
    rewrite Hjob. reflexivity.
Qed.

(** X7: a participant with a blank identity counts as nobody: when the
first participant that is not an agent has the identity "", both tools
report that nobody was found and send nothing, whoever else is in the
room. *)
Theorem blank_identity_is_nobody name weight price quantity product_id env s ctx :
  job_context env = inr ctx ->
  first_non_agent (room ctx) = Some "" ->
  create_product SUPABASE_URL SUPABASE_SERVICE_ROLE_KEY
    name weight price quantity env s
  = (inr "Error: Could not determine seller identity.", s)
  /\ add_product_to_show product_id env s
     = (inr "Error: No broadcaster found in the room.", s).
Proof.
  intros Hjob Hfirst. split.
  - unfold create_product, bind.
    rewrite get_seller_id_from_room_run, Hjob, Hfirst. reflexivity.
  - unfold add_product_to_show, try_except, bind, get_job_context.
    rewrite Hjob, broadcaster_scan_first, Hfirst. reflexivity.
Qed.

(** X8: the scan of [get_seller_id_from_room] returns an identity exactly
when the participants are some agents, then a participant of that
identity that is not an agent, then anyone: agents before it are skipped
and nobody after it is looked at. *)
Theorem scan_finds_first (items : list (string * rtc.RemoteParticipant))
    (identity : string) :
  seller_scan items = Some identity
  <-> exists before participant after,
        items = (before ++ (identity, participant) :: after)%list
        /\ Forall (fun entry => is_agent (snd entry) = true) before
        /\ is_agent participant = false.
Proof.
  split.
  - induction items as [| [k p] rest IH]; simpl; [discriminate |].
    destruct (rtc.kind_eqb (rtc.kind p) rtc.PARTICIPANT_KIND_AGENT) eqn:Hkind.
    + intros Hrest.
      destruct (IH Hrest) as (before & q & after & -> & Hbefore & Hq).
      exists ((k, p) :: before), q, after.
      split; [reflexivity |]. split; [| exact Hq].
      constructor; [exact Hkind | exact Hbefore].
    + intros [= ->]. exists [], p, rest.
      split; [reflexivity |]. split; [constructor | exact Hkind].
  - intros (before & p & after & -> & Hbefore & Hp).
    induction Hbefore as [| [k q] before Hq _ IH]; simpl.
    + unfold is_agent in Hp. rewrite Hp. reflexivity.
    + unfold is_agent in Hq. simpl in Hq. rewrite Hq. exact IH.
Qed.

(** ** What the endpoint may answer *)

(** X9: when [client.post] raises, or the endpoint answers 2xx with a
body that [resp.json()] cannot decode, [create_product] returns "Error
creating product: " followed by the text of that exception; the request
went out and the assistant is as it was. *)
Theorem create_product_client_error name weight price quantity env s seller e :
  seller_in_room env seller ->
  let req :=
    insert_request SUPABASE_URL SUPABASE_SERVICE_ROLE_KEY
      seller name weight price quantity in
  (endpoint env req = inl e
   \/ exists resp,
        endpoint env req = inr resp
        /\ 200 <= httpx.status_code resp <= 299
        /\ httpx.body resp = inl e) ->
  create_product SUPABASE_URL SUPABASE_SERVICE_ROLE_KEY
    name weight price quantity env s
  = (inr ("Error creating product: " ++ exn_str e), with_posted s req).
Proof.
  intros Hseller req Hanswer.
  rewrite (create_product_run name weight price quantity env s seller Hseller).
  rewrite supabase_insert_product_run. fold req.
  destruct Hanswer as [Hraise | (resp & Hresp & Hstatus & Hbody)].
  - rewrite Hraise. reflexivity.
  - apply is_success_iff in Hstatus.
    rewrite Hresp, Hstatus, Hbody. reflexivity.
Qed.

(** X10: when the endpoint answers 2xx and the row, the body or the first
element of a list, is not an object, [create_product] reports the
[AttributeError] of [product.get] under the type of the row, and the
assistant is as it was. *)
Theorem create_product_row_not_object name weight price quantity env s seller
    resp data row :
  seller_in_room env seller ->
  let req :=
    insert_request SUPABASE_URL SUPABASE_SERVICE_ROLE_KEY
      seller name weight price quantity in
  endpoint env req = inr resp ->
  200 <= httpx.status_code resp <= 299 ->
  httpx.body resp = inr data ->
  normalized data = Some row ->
  (forall fields, row <> PyDict fields) ->
  create_product SUPABASE_URL SUPABASE_SERVICE_ROLE_KEY
    name weight price quantity env s
  = (inr ("Error creating product: '" ++ type_name row
          ++ "' object has no attribute 'get'"),
     with_posted s req).
Proof.
  intros Hseller req Hresp Hstatus Hbody Hrow Hother.
  rewrite (create_product_run name weight price quantity env s seller Hseller).
  rewrite supabase_insert_product_run. fold req.
  apply is_success_iff in Hstatus.
  rewrite Hresp, Hstatus, Hbody, Hrow.
  destruct row as [| b | n | x | t | items | fields]; try reflexivity.
  destruct (Hother fields eq_refl).
Qed.

(** X11: an id that is present is kept as it is: when the row is an object
with an "id", whatever its value, integer, [null] or blank text,
[create_product] reports success with [str] of that value and remembers
the value; "unknown" stands in for a missing key only, and of a list only
the first row is read. *)
Theorem create_product_keeps_any_id name weight price quantity env s seller
    resp data fields product_id :
  seller_in_room env seller ->
  let req :=
    insert_request SUPABASE_URL SUPABASE_SERVICE_ROLE_KEY
      seller name weight price quantity in
  endpoint env req = inr resp ->
  200 <= httpx.status_code resp <= 299 ->
  httpx.body resp = inr data ->
  normalized data = Some (PyDict fields) ->
  dict_lookup "id" fields = Some product_id ->
  create_product SUPABASE_URL SUPABASE_SERVICE_ROLE_KEY
    name weight price quantity env s
  = (inr ("Product created successfully. Name: " ++ name
          ++ ", Price: $" ++ format_2f price
          ++ ", Weight: " ++ float_str weight
          ++ "oz, Quantity: " ++ int_str quantity
          ++ ". Product ID: " ++ py_str product_id),
     {| self := {| _last_product_id := product_id;
                   _last_product_name := Some name |};
        posted := posted s ++ [req];
        rpcs := rpcs s |}).
Proof.
  intros Hseller req Hresp Hstatus Hbody Hrow Hid.
  rewrite (create_product_run name weight price quantity env s seller Hseller).
  rewrite supabase_insert_product_run. fold req.
  apply is_success_iff in Hstatus.
  rewrite Hresp, Hstatus, Hbody, Hrow. cbv zeta. rewrite Hid. reflexivity.
Qed.

(** ** One tool after the other *)

(** [add_product_to_show] with a broadcaster in the room, by what the peer
gives. *)
Lemma add_product_to_show_run product_id env s broadcaster :
  seller_in_room env broadcaster ->
  add_product_to_show product_id env s
  = (match peer env (carousel_call broadcaster product_id (self s)) with
     | inr response =>
         inr ("Product added to the live show carousel. " ++ response)
     | inl e => inr ("Error adding product to show: " ++ exn_str e)
     end,
     with_rpc s (carousel_call broadcaster product_id (self s))).
Proof.
  intros (ctx & Hjob & Hfirst & Hblank).
  unfold add_product_to_show, try_except, bind, get_job_context.
  rewrite Hjob, broadcaster_scan_first, Hfirst.
  unfold truthy. destruct (String.eqb_spec broadcaster ""); [contradiction |].
  cbn [negb str_of get_self perform_rpc fst snd].
  fold (carousel_call broadcaster product_id (self s)).
  destruct (peer env _); reflexivity.
Qed.

(** Of the session, [add_product_to_show] reads the remembered name and
the log of calls, nothing else. *)
Lemma add_product_to_show_reads product_id env s1 s2 :
  _last_product_name (self s1) = _last_product_name (self s2) ->
  rpcs s1 = rpcs s2 ->
  fst (add_product_to_show product_id env s1)
  = fst (add_product_to_show product_id env s2)
  /\ rpcs (snd (add_product_to_show product_id env s1))
     = rpcs (snd (add_product_to_show product_id env s2)).
Proof.
  intros Hname Hrpcs.
  unfold add_product_to_show, try_except, bind, get_job_context.
  destruct (job_context env) as [e | ctx]; [split; [reflexivity | exact Hrpcs] |].
  destruct (negb _); [split; [reflexivity | exact Hrpcs] |].
  cbn [get_self perform_rpc fst snd].
  rewrite Hname, Hrpcs.
  destruct (peer env _); split; reflexivity.
Qed.

(** With a seller in the room, what [create_product] leaves in the logs. *)
Lemma create_product_log name weight price quantity env s seller :
  seller_in_room env seller ->
  let run :=
    create_product SUPABASE_URL SUPABASE_SERVICE_ROLE_KEY
      name weight price quantity env s in
  posted (snd run)
  = (posted s
     ++ [insert_request SUPABASE_URL SUPABASE_SERVICE_ROLE_KEY
           seller name weight price quantity])%list
  /\ rpcs (snd run) = rpcs s.
Proof.
  intros Hseller run. unfold run.
  rewrite (create_product_run name weight price quantity env s seller Hseller).
  rewrite supabase_insert_product_run.
  destruct (endpoint env _) as [e | resp]; [split; reflexivity |].
  destruct (httpx.is_success resp); [| split; reflexivity].
  destruct (httpx.body resp) as [e | data]; [split; reflexivity |].
  destruct (normalized data) as [row |]; [| split; reflexivity].
  destruct row; split; reflexivity.
Qed.

(** X12: on one snapshot of the room, the product and the carousel go to
the same participant: the request [create_product] posts carries as
seller_id the identity the call of [add_product_to_show] is sent to. *)
Theorem seller_is_broadcaster name weight price quantity product_id env s seller :
  seller_in_room env seller ->
  let s1 :=
    snd (create_product SUPABASE_URL SUPABASE_SERVICE_ROLE_KEY
           name weight price quantity env s) in
  let s2 := snd (add_product_to_show product_id env s1) in
  exists req call,
    posted s2 = (posted s ++ [req])%list
    /\ value_field "seller_id" (httpx.json req) = Some (PyStr seller)
    /\ rpcs s2 = (rpcs s ++ [call])%list
    /\ rtc.destination_identity call = seller.
Proof.
  intros Hseller s1 s2.
  destruct (create_product_log name weight price quantity env s seller Hseller)
    as [Hposted Hrpcs].
  fold s1 in Hrpcs, Hposted.
  exists (insert_request SUPABASE_URL SUPABASE_SERVICE_ROLE_KEY
            seller name weight price quantity),
         (carousel_call seller product_id (self s1)).
  unfold s2. rewrite (add_product_to_show_run product_id env s1 seller Hseller).
  cbn [snd with_rpc posted rpcs]. rewrite Hposted, Hrpcs.
  repeat split.
Qed.

(** X13: the remembered product id is never read: under any other
[_last_product_id] the reply of [add_product_to_show] and the calls it
leaves are the same; the id sent is the argument of the tool. *)
Theorem show_ignores_remembered_id product_id env s v :
  fst (add_product_to_show product_id env (with_last_product_id s v))
  = fst (add_product_to_show product_id env s)
  /\ rpcs (snd (add_product_to_show product_id env (with_last_product_id s v)))
     = rpcs (snd (add_product_to_show product_id env s)).
Proof.
  unfold add_product_to_show, try_except, bind, get_job_context.
  destruct (job_context env) as [e | ctx]; [split; reflexivity |].
  destruct (negb _); [split; reflexivity |].
  cbn [get_self perform_rpc fst snd with_last_product_id self rpcs
       _last_product_name].
  destruct (peer env _); split; reflexivity.
Qed.

(** X14: a product put on the carousel after its creation goes under its
own name: when [create_product] has replied with a summary for a name
that is not blank, the next [add_product_to_show], in a room with a
broadcaster, sends one call whose payload is [json.dumps] of the id it
is given and that name. *)
Theorem create_then_show name weight price quantity env s product_id
    remembered env' broadcaster :
  name <> "" ->
  fst (create_product SUPABASE_URL SUPABASE_SERVICE_ROLE_KEY
         name weight price quantity env s)
  = inr (summary name weight price quantity remembered) ->
  seller_in_room env' broadcaster ->
  let s1 :=
    snd (create_product SUPABASE_URL SUPABASE_SERVICE_ROLE_KEY
           name weight price quantity env s) in
  rpcs (snd (add_product_to_show product_id env' s1))
  = (rpcs s
     ++ [ {| rtc.destination_identity := broadcaster;
             rtc.method := "addProductToShow";
             rtc.payload :=
               json_dumps
                 (PyDict [("productId", PyStr product_id); ("name", PyStr name)]);
             rtc.response_timeout := float_of_Z 10 |} ])%list.
Proof.
  intros Hname Hreply Hbroadcaster s1.
  assert (Hs1 : _last_product_name (self s1) = Some name /\ rpcs s1 = rpcs s).
  { unfold s1.
    destruct (create_product_cases name weight price quantity env s)
      as [[_ Hrun] | (seller & _ & [(e & _ & Hrun) | (product & _ & Hcase)])].
    - rewrite Hrun in Hreply. discriminate Hreply.
    - rewrite Hrun in Hreply. discriminate Hreply.
    - destruct Hcase as [[_ Hrun] | (fields & _ & Hrun)].
      + rewrite Hrun in Hreply. discriminate Hreply.
      + rewrite Hrun. split; reflexivity. }
  destruct Hs1 as [Hremembered Hrpcs].
  rewrite (add_product_to_show_run product_id env' s1 broadcaster Hbroadcaster).
  cbn [snd with_rpc rpcs]. rewrite Hrpcs.
  unfold carousel_call, or_default. rewrite Hremembered.
  destruct (String.eqb_spec name ""); [contradiction | reflexivity].
Qed.

(** X15: a creation that fails forgets nothing: when [create_product]
replies with an error, a following [add_product_to_show] replies and
calls as it would have before the failed creation. *)
Theorem failed_create_keeps_product name weight price quantity env s reply
    product_id env' :
  fst (create_product SUPABASE_URL SUPABASE_SERVICE_ROLE_KEY
         name weight price quantity env s) = inr reply ->
  begins_with "Error" reply ->
  let s1 :=
    snd (create_product SUPABASE_URL SUPABASE_SERVICE_ROLE_KEY
           name weight price quantity env s) in
  fst (add_product_to_show product_id env' s1)
  = fst (add_product_to_show product_id env' s)
  /\ rpcs (snd (add_product_to_show product_id env' s1))
     = rpcs (snd (add_product_to_show product_id env' s)).
Proof.
  intros Hreply [rest Herror] s1.
  assert (Hs1 : self s1 = self s /\ rpcs s1 = rpcs s).
  { unfold s1.
    destruct (create_product_cases name weight price quantity env s)
      as [[_ Hrun] | (seller & _ & [(e & _ & Hrun) | (product & _ & Hcase)])].
    - rewrite Hrun. split; reflexivity.
    - rewrite Hrun. split; reflexivity.
    - destruct Hcase as [[_ Hrun] | (fields & _ & Hrun)].
      + rewrite Hrun. split; reflexivity.
      + rewrite Hrun in Hreply. injection Hreply as <-.
        discriminate Herror. }
  destruct Hs1 as [Hself Hrpcs].
  apply add_product_to_show_reads; [rewrite Hself; reflexivity | exact Hrpcs].
Qed.

(** ** A whole conversation *)

(** What one call adds to the logs. *)
Lemma call_tool_log t env s :
  let s1 := snd (call_tool SUPABASE_URL SUPABASE_SERVICE_ROLE_KEY t env s) in
  exists requests calls,
    posted s1 = (posted s ++ requests)%list
    /\ rpcs s1 = (rpcs s ++ calls)%list
    /\ (List.length requests <= if is_create t then 1 else 0)%nat
    /\ (List.length calls <= if is_create t then 0 else 1)%nat.
Proof.
  destruct t as [name weight price quantity | product_id]; cbn [call_tool is_create].
  - destruct (seller_in_room_dec env) as [[seller Hseller] | [Hnone Hfalsy]].
    + destruct (create_product_log name weight price quantity env s seller Hseller)
        as [Hposted Hrpcs].
      cbv zeta. rewrite Hposted, Hrpcs.
      exists [insert_request SUPABASE_URL SUPABASE_SERVICE_ROLE_KEY
                seller name weight price quantity], [].
      rewrite app_nil_r. repeat split; simpl; lia.
    + cbv zeta. unfold create_product, bind.
      rewrite get_seller_id_from_room_run, Hfalsy. simpl.
      exists [], []. rewrite !app_nil_r. repeat split; simpl; lia.
  - cbv zeta.
    destruct (add_product_to_show_cases product_id env s)
      as [(e & _ & ->) | [(ctx & _ & _ & ->) | (ctx & b & _ & _ & _ & Hsent)]].
    + exists [], []. rewrite !app_nil_r. repeat split; simpl; lia.
    + exists [], []. rewrite !app_nil_r. repeat split; simpl; lia.
    + cbv zeta in Hsent.
      destruct Hsent as [(response & _ & ->) | (e & _ & ->)];
        (exists [], [carousel_call b product_id (self s)]);
        rewrite app_nil_r; repeat split; simpl; lia.
Qed.

(** A conversation continued by one call. *)
Lemma run_calls_snoc calls env t s :
  snd (run_calls SUPABASE_URL SUPABASE_SERVICE_ROLE_KEY (calls ++ [(env, t)]) s)
  = snd (call_tool SUPABASE_URL SUPABASE_SERVICE_ROLE_KEY t env
           (snd (run_calls SUPABASE_URL SUPABASE_SERVICE_ROLE_KEY calls s))).
Proof.
  revert s. induction calls as [| [env0 t0] rest IH]; intros s; simpl.
  - destruct (call_tool _ _ t env s) as [[e | reply] s']; reflexivity.
  - destruct (call_tool_returns SUPABASE_URL SUPABASE_SERVICE_ROLE_KEY t0 env0 s)
      as [reply Hreply].
    destruct (call_tool _ _ t0 env0 s) as [[e | reply'] s'];
      simpl in Hreply; [discriminate Hreply |].
    specialize (IH s').
    destruct (run_calls _ _ (rest ++ [(env, t)]) s') as [replies1 s1].
    destruct (run_calls _ _ rest s') as [replies2 s2].
    simpl in *. exact IH.
Qed.

(** X16: a conversation only adds to the logs, and at most one request
for each call of [create_product] and one remote procedure call for each
call of [add_product_to_show]: nothing is retried, nothing is sent on the
side, nothing already logged is changed. *)
Theorem conversation_traffic_bounds calls s :
  let s' := snd (run_calls SUPABASE_URL SUPABASE_SERVICE_ROLE_KEY calls s) in
  (exists requests,
     posted s' = (posted s ++ requests)%list
     /\ (List.length requests <= creations calls)%nat)
  /\ (exists sent,
        rpcs s' = (rpcs s ++ sent)%list
        /\ (List.length sent <= showings calls)%nat).
Proof.
  cbv zeta. revert s.
  induction calls as [| [env t] rest IH]; intros s.
  - simpl. split; exists []; rewrite app_nil_r; split; auto.
  - destruct (call_tool_log t env s) as (requests & sent & Hp & Hr & Hlp & Hlr).
    cbv zeta in Hp, Hr.
    assert (Hstep :
      snd (run_calls SUPABASE_URL SUPABASE_SERVICE_ROLE_KEY ((env, t) :: rest) s)
      = snd (run_calls SUPABASE_URL SUPABASE_SERVICE_ROLE_KEY rest
               (snd (call_tool SUPABASE_URL SUPABASE_SERVICE_ROLE_KEY t env s)))).
    { simpl.
      destruct (call_tool_returns SUPABASE_URL SUPABASE_SERVICE_ROLE_KEY t env s)
        as [reply Hreply].
      destruct (call_tool _ _ t env s) as [[e | reply'] s1];
        simpl in Hreply; [discriminate Hreply |].
      simpl. destruct (run_calls _ _ rest s1); reflexivity. }
    rewrite Hstep.
    destruct (IH (snd (call_tool SUPABASE_URL SUPABASE_SERVICE_ROLE_KEY t env s)))
      as [(requests' & Hp' & Hlp') (sent' & Hr' & Hlr')].
    unfold creations, showings in *. cbn [filter snd].
    split.
    + exists (requests ++ requests')%list.
      rewrite Hp', Hp, app_assoc. split; [reflexivity |].
      rewrite length_app. destruct (is_create t); simpl in *; lia.
    + exists (sent ++ sent')%list.
      rewrite Hr', Hr, app_assoc. split; [reflexivity |].
      rewrite length_app. destruct (is_create t); simpl in *; lia.
Qed.

Lemma created_in_app calls more name :
  created_in calls name -> created_in (calls ++ more) name.
Proof.
  intros (env & weight & price & quantity & Hin).
  exists env, weight, price, quantity. apply in_or_app. left. exact Hin.
Qed.

Lemma posted_in_app calls more req :
  posted_in SUPABASE_URL SUPABASE_SERVICE_ROLE_KEY calls req ->
  posted_in SUPABASE_URL SUPABASE_SERVICE_ROLE_KEY (calls ++ more) req.
Proof.
  intros (env & name & weight & price & quantity & seller & Hin & Hrest).
  exists env, name, weight, price, quantity, seller.
  split; [apply in_or_app; left; exact Hin | exact Hrest].
Qed.

Lemma shown_in_app calls more call :
  shown_in calls call -> shown_in (calls ++ more) call.
Proof.
  intros (env & product_id & broadcaster & name & Hin & Hroom & Hname & Hcall).
  exists env, product_id, broadcaster, name.
  split; [apply in_or_app; left; exact Hin |].
  split; [exact Hroom |]. split; [| exact Hcall].
  destruct Hname as [Hname | Hname]; [left; exact Hname |].
  right. apply created_in_app. exact Hname.
Qed.

Lemma remembers_from_app calls more a :
  remembers_from calls a -> remembers_from (calls ++ more) a.
Proof.
  unfold remembers_from.
  destruct (_last_product_name a); [apply created_in_app | auto].
Qed.

(** One call keeps the logs and the memory tied to the calls made. *)
Lemma call_tool_provenance calls t env s :
  Forall (posted_in SUPABASE_URL SUPABASE_SERVICE_ROLE_KEY calls) (posted s) ->
  Forall (shown_in calls) (rpcs s) ->
  remembers_from calls (self s) ->
  let s1 := snd (call_tool SUPABASE_URL SUPABASE_SERVICE_ROLE_KEY t env s) in
  let calls1 := (calls ++ [(env, t)])%list in
  Forall (posted_in SUPABASE_URL SUPABASE_SERVICE_ROLE_KEY calls1) (posted s1)
  /\ Forall (shown_in calls1) (rpcs s1)
  /\ remembers_from calls1 (self s1).
Proof.
  intros Hposted Hrpcs Hself s1 calls1.
  assert (Hposted1 :
    Forall (posted_in SUPABASE_URL SUPABASE_SERVICE_ROLE_KEY calls1) (posted s))
    by (eapply Forall_impl; [| exact Hposted]; intros req; apply posted_in_app).
  assert (Hrpcs1 : Forall (shown_in calls1) (rpcs s))
    by (eapply Forall_impl; [| exact Hrpcs]; intros call; apply shown_in_app).
  assert (Hself1 : remembers_from calls1 (self s))
    by (apply remembers_from_app; exact Hself).
  assert (Hlast : In (env, t) calls1) by (apply in_or_app; right; left; reflexivity).
  subst s1.
  destruct t as [name weight price quantity | product_id]; cbn [call_tool].
  - destruct (create_product_cases name weight price quantity env s)
      as [[_ ->] | (seller & Hseller & Hcase)]; [auto |].
    assert (Hreq :
      Forall (posted_in SUPABASE_URL SUPABASE_SERVICE_ROLE_KEY calls1)
        (posted s
         ++ [insert_request SUPABASE_URL SUPABASE_SERVICE_ROLE_KEY
               seller name weight price quantity])).
    { apply Forall_app. split; [exact Hposted1 |].
      constructor; [| constructor].
      exists env, name, weight, price, quantity, seller. auto. }
    cbv zeta in Hcase.
    destruct Hcase as [(e & _ & ->) | (product & _ & [[_ ->] | (fields & _ & ->)])];
      cbn [snd with_posted remember self posted rpcs]; try (split; [| split]; assumption).
    split; [exact Hreq |]. split; [exact Hrpcs1 |].
    unfold remembers_from. cbn [_last_product_name].
    exists env, weight, price, quantity. exact Hlast.
  - destruct (add_product_to_show_cases product_id env s)
      as [(e & _ & ->) | [(ctx & _ & _ & ->) | (ctx & b & Hjob & Hfirst & Hblank & Hsent)]];
      [auto | auto |].
    cbv zeta in Hsent.
    assert (Hcall : shown_in calls1 (carousel_call b product_id (self s))).
    { exists env, product_id, b, (or_default (_last_product_name (self s)) "Product").
      split; [exact Hlast |].
      split; [exists ctx; auto |].
      split; [| reflexivity].
      unfold remembers_from in Hself1. unfold or_default.
      destruct (_last_product_name (self s)) as [remembered |]; [| left; reflexivity].
      destruct (String.eqb remembered ""); [left; reflexivity | right; exact Hself1]. }
    destruct Hsent as [(response & _ & ->) | (e & _ & ->)];
      cbn [snd with_rpc self posted rpcs];
      (split; [exact Hposted1 |]); (split; [| exact Hself1]);
      apply Forall_app; (split; [exact Hrpcs1 |]); constructor; auto.
Qed.

(** X17: everything a conversation leaves comes from its calls.  Started
on a new assistant, every request posted is the insertion of one of its
creations, under a seller of that call's room; every remote procedure
call is addProductToShow with a timeout of ten seconds, to a broadcaster
of the room of one of its showings, with the id given to that showing and
the name "Product" or the name of one of its creations; and the
assistant remembers nothing, with no id, or the name of one of its
creations. *)
Theorem conversation_provenance calls :
  let s' :=
    snd (run_calls SUPABASE_URL SUPABASE_SERVICE_ROLE_KEY calls new_session) in
  Forall (posted_in SUPABASE_URL SUPABASE_SERVICE_ROLE_KEY calls) (posted s')
  /\ Forall (shown_in calls) (rpcs s')
  /\ remembers_from calls (self s').
Proof.
  cbv zeta.
  induction calls as [| [env t] calls IH] using rev_ind.
  - simpl. repeat split; constructor.
  - destruct IH as (Hposted & Hrpcs & Hself).
    rewrite run_calls_snoc.
    apply (call_tool_provenance calls t env _ Hposted Hrpcs Hself).
Qed.

End Tools.

(** ** The settings *)




(** * The further properties on the worked session *)

Module Encore.

Import Scenario Rehearsal.

Lemma seller_cut_off : seller_in_room (cut_off studio) "alice".
Proof.
  exists studio. repeat split. discriminate.
Defined.

(** X6 outside a job. *)
Lemma outside_a_job_witness :
  create_product (runtime := CPython.runtime) url key "Mug" twelve nine_fifty 3
    (off_air created answering) new_session
  = (inr "Error: Could not determine seller identity.", new_session)
  /\ add_product_to_show (runtime := CPython.runtime) "b1946ac9"
       (off_air created answering) new_session
     = (inr "Error adding product to show: no job context found", new_session).
Proof.
  apply (outside_a_job (runtime := CPython.runtime) url key "Mug" twelve
           nine_fifty 3 "b1946ac9" (off_air created answering) new_session no_job).
  reflexivity.
Defined.

(** X7 in the room whose first caller has no name. *)
Lemma blank_identity_is_nobody_witness :
  create_product (runtime := CPython.runtime) url key "Mug" twelve nine_fifty 3
    (on_air nameless created answering) new_session
  = (inr "Error: Could not determine seller identity.", new_session)
  /\ add_product_to_show (runtime := CPython.runtime) "b1946ac9"
       (on_air nameless created answering) new_session
     = (inr "Error: No broadcaster found in the room.", new_session).
Proof.
  apply (blank_identity_is_nobody (runtime := CPython.runtime) url key "Mug"
           twelve nine_fifty 3 "b1946ac9" (on_air nameless created answering)
           new_session nameless).
  - reflexivity.
  - reflexivity.
Defined.

(** X9 with an endpoint that cannot be reached, and with a body that is
not JSON. *)
Lemma create_product_client_error_witness :
  create_product (runtime := CPython.runtime) url key "Mug" twelve nine_fifty 3
    (cut_off studio) new_session
  = (inr "Error creating product: All connection attempts failed",
     with_posted new_session
       (insert_request url key "alice" "Mug" twelve nine_fifty 3))
  /\ create_product (runtime := CPython.runtime) url key "Mug" twelve
       nine_fifty 3 (on_air studio not_json answering) new_session
     = (inr "Error creating product: Expecting value: line 1 column 1 (char 0)",
        with_posted new_session
          (insert_request url key "alice" "Mug" twelve nine_fifty 3)).
Proof.
  split.
  - apply (create_product_client_error (runtime := CPython.runtime) url key
             "Mug" twelve nine_fifty 3 (cut_off studio) new_session "alice"
             unreachable seller_cut_off).
    left. reflexivity.
  - apply (create_product_client_error (runtime := CPython.runtime) url key
             "Mug" twelve nine_fifty 3 (on_air studio not_json answering)
             new_session "alice"
             (Exn "JSONDecodeError" "Expecting value: line 1 column 1 (char 0)")
             (Replay.seller_alice not_json answering)).
    right. exists not_json. repeat split; simpl; lia.
Defined.

(** X10 with the row [null]. *)
Lemma create_product_row_not_object_witness :
  create_product (runtime := CPython.runtime) url key "Mug" twelve nine_fifty 3
    (on_air studio null_row answering) new_session
  = (inr "Error creating product: 'NoneType' object has no attribute 'get'",
     with_posted new_session
       (insert_request url key "alice" "Mug" twelve nine_fifty 3)).
Proof.
  apply (create_product_row_not_object (runtime := CPython.runtime) url key
           "Mug" twelve nine_fifty 3 (on_air studio null_row answering)
           new_session "alice" null_row (PyList [PyNone]) PyNone
           (Replay.seller_alice null_row answering)).
  - reflexivity.
  - simpl. lia.
  - reflexivity.
  - reflexivity.
  - intros fields. discriminate.
Defined.

(** X11 with an id that is [null], and with two rows. *)
Lemma create_product_keeps_any_id_witness :
  create_product (runtime := CPython.runtime) url key "Mug" twelve nine_fifty 3
    (on_air studio null_id answering) new_session
  = (inr "Product created successfully. Name: Mug, Price: $9.50, Weight: 12.0oz, Quantity: 3. Product ID: None",
     {| self := {| _last_product_id := PyNone; _last_product_name := Some "Mug" |};
        posted := [insert_request url key "alice" "Mug" twelve nine_fifty 3];
        rpcs := [] |})
  /\ create_product (runtime := CPython.runtime) url key "Mug" twelve
       nine_fifty 3 (on_air studio two_rows answering) new_session
     = (inr "Product created successfully. Name: Mug, Price: $9.50, Weight: 12.0oz, Quantity: 3. Product ID: 41",
        {| self := {| _last_product_id := PyInt 41; _last_product_name := Some "Mug" |};
           posted := [insert_request url key "alice" "Mug" twelve nine_fifty 3];
           rpcs := [] |}).
Proof.
  split.
  - apply (create_product_keeps_any_id (runtime := CPython.runtime) url key
             "Mug" twelve nine_fifty 3 (on_air studio null_id answering)
             new_session "alice" null_id (PyDict [("id", PyNone)])
             [("id", PyNone)] PyNone (Replay.seller_alice null_id answering)).
    + reflexivity.
    + simpl. lia.
    + reflexivity.
    + reflexivity.
    + reflexivity.
  - apply (create_product_keeps_any_id (runtime := CPython.runtime) url key
             "Mug" twelve nine_fifty 3 (on_air studio two_rows answering)
             new_session "alice" two_rows
             (PyList [PyDict [("id", PyInt 41)]; PyDict [("id", PyInt 42)]])
             [("id", PyInt 41)] (PyInt 41)
             (Replay.seller_alice two_rows answering)).
    + reflexivity.
    + simpl. lia.
    + reflexivity.
    + reflexivity.
    + reflexivity.
Defined.

(** X12 on the studio: the mug is sold by alice and shown by alice. *)
Lemma seller_is_broadcaster_witness :
  exists req call,
    posted
      (snd (add_product_to_show (runtime := CPython.runtime) "b1946ac9"
              (on_air studio created answering)
              (snd (create_product (runtime := CPython.runtime) url key "Mug"
                      twelve nine_fifty 3 (on_air studio created answering)
                      new_session))))
    = [req]
    /\ value_field "seller_id" (httpx.json req) = Some (PyStr "alice")
    /\ rpcs
         (snd (add_product_to_show (runtime := CPython.runtime) "b1946ac9"
                 (on_air studio created answering)
                 (snd (create_product (runtime := CPython.runtime) url key "Mug"
                         twelve nine_fifty 3 (on_air studio created answering)
                         new_session))))
       = [call]
    /\ rtc.destination_identity call = "alice".
Proof.
  apply (seller_is_broadcaster (runtime := CPython.runtime) url key "Mug" twelve
           nine_fifty 3 "b1946ac9" (on_air studio created answering) new_session
           "alice").
  apply Replay.seller_alice.
Defined.

(** X14 on the studio: the mug goes on the carousel as Mug. *)
Lemma create_then_show_witness :
  rpcs
    (snd (add_product_to_show (runtime := CPython.runtime) "b1946ac9"
            (on_air studio refused silent)
            (snd (create_product (runtime := CPython.runtime) url key "Mug"
                    twelve nine_fifty 3 (on_air studio created answering)
                    new_session))))
  = [ {| rtc.destination_identity := "alice";
         rtc.method := "addProductToShow";
         rtc.payload :=
           CPython.json_dumps
             (PyDict [("productId", PyStr "b1946ac9"); ("name", PyStr "Mug")]);
         rtc.response_timeout := float_of_Z 10 |} ].
Proof.
  apply (create_then_show (runtime := CPython.runtime) url key "Mug" twelve
           nine_fifty 3 (on_air studio created answering) new_session
           "b1946ac9" (PyStr "b1946ac9") (on_air studio refused silent) "alice").
  - discriminate.
  - reflexivity.
  - apply Replay.seller_alice.
Defined.

(** X15 on the studio: after the mug, a refused cup changes nothing for
the carousel. *)
Lemma failed_create_keeps_product_witness :
  fst (add_product_to_show (runtime := CPython.runtime) "b1946ac9"
         (on_air studio created answering)
         (snd (create_product (runtime := CPython.runtime) url key "Cup" twelve
                 nine_fifty 1 (on_air studio refused answering) after_mug)))
  = fst (add_product_to_show (runtime := CPython.runtime) "b1946ac9"
           (on_air studio created answering) after_mug)
  /\ rpcs
       (snd (add_product_to_show (runtime := CPython.runtime) "b1946ac9"
               (on_air studio created answering)
               (snd (create_product (runtime := CPython.runtime) url key "Cup"
                       twelve nine_fifty 1 (on_air studio refused answering)
                       after_mug))))
     = rpcs
         (snd (add_product_to_show (runtime := CPython.runtime) "b1946ac9"
                 (on_air studio created answering) after_mug)).
Proof.
  apply (failed_create_keeps_product (runtime := CPython.runtime) url key "Cup"
           twelve nine_fifty 1 (on_air studio refused answering) after_mug
           "Error creating product: Client error '401 Unauthorized'"
           "b1946ac9" (on_air studio created answering)).
  - reflexivity.
  - exists " creating product: Client error '401 Unauthorized'". reflexivity.
Defined.


(** The evening: a mug is created, a cup is refused, the mug is shown. *)
Example evening_replies :
  run_calls (runtime := CPython.runtime) url key evening new_session
  = ([ "Product created successfully. Name: Mug, Price: $9.50, Weight: 12.0oz, Quantity: 3. Product ID: b1946ac9";
       "Error creating product: Client error '401 Unauthorized'";
       "Product added to the live show carousel. added" ],
     {| self := {| _last_product_id := PyStr "b1946ac9";
                   _last_product_name := Some "Mug" |};
        posted :=
          [ insert_request url key "alice" "Mug" twelve nine_fifty 3;
            insert_request url key "alice" "Cup" twelve nine_fifty 1 ];
        rpcs :=
          [ {| rtc.destination_identity := "alice";
               rtc.method := "addProductToShow";
               rtc.payload :=
                 CPython.json_dumps
                   (PyDict [("productId", PyStr "b1946ac9"); ("name", PyStr "Mug")]);
               rtc.response_timeout := float_of_Z 10 |} ] |}).
Proof. reflexivity. Qed.

End Encore.
